(** * Webhook payload composers of saleor/webhook/payloads.py

    A shallow embedding of the transformation layer that turns domain
    objects into webhook payload documents, together with the properties
    the specification states about it.

    Conventions.
    - A Python [dict] with string keys is an insertion-ordered association
      list ([Dict]); [dict_set] is [d[k] = v], [dict_update] is [d.update(e)].
    - A JSON document is a value of type [json]; a payload that the source
      passes through [json.dumps] / [json.loads] is kept as its [json] value.
    - A Python exception is a constructor of [PyError]; a call that may
      raise returns a [Result].
    - Collaborators that live outside payloads.py (id encoder, clock,
      pricing engine, quantizer, anonymizer, ...) are the fields of [Env]. *)

From Stdlib Require Import ZArith Ascii.
From stdpp Require Import gmap strings pretty list fin_maps.

Local Open Scope Z_scope.
Local Open Scope string_scope.

(** ** Values *)

(** [decimal.Decimal]: the number [mantissa * 10 ^ exponent]. *)
Record Decimal := mkDecimal { mantissa : Z; exponent : Z }.

(** [Decimal * int], as the fulfilment totals compute it. The coefficient
    is multiplied and the exponent kept (the 28-digit context rounding of
    Python is not reached by payload amounts and is not modelled). *)
Definition dec_mul_int (d : Decimal) (n : Z) : Decimal :=
  mkDecimal (mantissa d * n) (exponent d).

#[warnings="-register-all"]
Inductive json :=
| JNull
| JBool (b : bool)
| JInt (z : Z)
| JDec (d : Decimal)
| JStr (s : string)
| JList (l : list json)
| JObj (o : list (string * json)).

Abbreviation Dict := (list (string * json)).

(** Python exceptions the composers can raise. *)
Inductive PyError :=
| UnboundLocalError (name : string)
| AttributeError (attr : string)
| KeyError (key : string)
| IndexError.

Inductive Result (A : Type) :=
| Ok (a : A)
| Raise (e : PyError).
Arguments Ok {A} a.
Arguments Raise {A} e.

Definition raises {A : Type} (r : Result A) : Prop :=
  match r with Ok _ => False | Raise _ => True end.

#[export] Instance Result_ret : MRet Result := fun _ a => Ok a.
#[export] Instance Result_bind : MBind Result := fun _ _ f r =>
  match r with Ok a => f a | Raise e => Raise e end.

(** ** Dictionaries *)

Fixpoint dict_get (k : string) (d : Dict) : option json :=
  match d with
  | [] => None
  | (k', v') :: r => if decide (k = k') then Some v' else dict_get k r
  end.

(** [d[k] = v]: an existing key keeps its position, a new key goes last. *)
Fixpoint dict_set (k : string) (v : json) (d : Dict) : Dict :=
  match d with
  | [] => [(k, v)]
  | (k', v') :: r =>
      if decide (k = k') then (k, v) :: r else (k', v') :: dict_set k v r
  end.

(** [d.update(e)], items of [e] taken in order. *)
Definition dict_update (d e : Dict) : Dict :=
  fold_left (fun acc kv => dict_set kv.1 kv.2 acc) e d.

(** A dict display [{k1: v1, ..., **more}]: later items win. *)
Definition dict_of_items (items : Dict) : Dict := dict_update [] items.

Definition keys (d : Dict) : list string := d.*1.

Definition has_key (k : string) (d : Dict) : bool :=
  bool_decide (k ∈ keys d).

(** ** Identifiers and key casing *)

Definition hex_digit (d : Z) : ascii :=
  match d with
  | 0 => "0" | 1 => "1" | 2 => "2" | 3 => "3" | 4 => "4" | 5 => "5"
  | 6 => "6" | 7 => "7" | 8 => "8" | 9 => "9" | 10 => "a" | 11 => "b"
  | 12 => "c" | 13 => "d" | 14 => "e" | _ => "f"
  end%char.

Fixpoint hex_fixed (width : nat) (n : Z) (acc : string) : string :=
  match width with
  | O => acc
  | S w => hex_fixed w (n / 16) (String (hex_digit (n mod 16)) acc)
  end.

(** [str(uuid.UUID(int=n))]: 32 hex digits grouped 8-4-4-4-12. *)
Definition uuid_str (n : Z) : string :=
  let h := hex_fixed 32 n "" in
  String.substring 0 8 h +:+ "-" +:+ String.substring 8 4 h +:+ "-" +:+
  String.substring 12 4 h +:+ "-" +:+ String.substring 16 4 h +:+ "-" +:+
  String.substring 20 12 h.

Definition ascii_upper (a : ascii) : ascii :=
  let n := nat_of_ascii a in
  if (97 <=? n)%nat && (n <=? 122)%nat then ascii_of_nat (n - 32) else a.

Definition ascii_lower (a : ascii) : ascii :=
  let n := nat_of_ascii a in
  if (65 <=? n)%nat && (n <=? 90)%nat then ascii_of_nat (n + 32) else a.

Fixpoint str_map (f : ascii → ascii) (s : string) : string :=
  match s with
  | EmptyString => EmptyString
  | String a r => String (f a) (str_map f r)
  end.

(** [str.capitalize] on ASCII text. *)
Definition capitalize (s : string) : string :=
  match s with
  | EmptyString => EmptyString
  | String a r => String (ascii_upper a) (str_map ascii_lower r)
  end.

(** [s.split("_")] *)
Fixpoint split_underscore (s : string) : list string :=
  match s with
  | EmptyString => [EmptyString]
  | String a r =>
      let l := split_underscore r in
      if decide (a = "_"%char) then EmptyString :: l
      else match l with
           | h :: t => String a h :: t
           | [] => [String a EmptyString]
           end
  end.

(** graphene's [to_camel_case]: the first component is kept, every later
    one is capitalized, an empty one becomes an underscore. *)
Definition graphene_to_camel_case (snake_str : string) : string :=
  match split_underscore snake_str with
  | [] => EmptyString
  | c0 :: rest =>
      c0 +:+ fold_right
               (fun x acc =>
                  (if decide (x = EmptyString) then "_" else capitalize x)
                  +:+ acc)
               EmptyString rest
  end.

(** ** Domain objects *)

Record TaxedMoney := mkTaxedMoney { net : Decimal; gross : Decimal }.

(** Result of [order_calculations.order_line_unit] / [order_line_total]. *)
Record OrderTaxedPricesData := mkOrderTaxedPricesData {
  price_with_discounts : TaxedMoney;
  undiscounted_price : TaxedMoney;
}.

Record PaymentAppData := mkPaymentAppData { app_pk : Z; app_name : string }.

(** A Django model instance as the serializer sees it: the model's
    [_meta.object_name], its primary key and its columns read by name. *)
Class Model (A : Type) := {
  object_name : A → string;
  pk : A → option Z;
  attr : A → string → json;
}.

(** A related object of whatever model (address, channel, shipping method,
    discount, payment, user): only serialized, never inspected. *)
Record Obj := mkObj {
  obj_type : string;
  obj_pk : option Z;
  obj_attr : string → json;
}.

#[export] Instance Obj_Model : Model Obj :=
  {| object_name := obj_type; pk := obj_pk; attr := obj_attr |}.

Record ProductType := mkProductType {
  product_type_name : string;
  product_type_metadata : json;
}.

Record Product := mkProduct {
  product_pk : Z;
  product_metadata : json;
  charge_taxes : bool;
  product_type : ProductType;
}.

Record ProductVariant := mkProductVariant {
  variant_pk : Z;
  product : Product;
  (** [variant.get_weight().g] *)
  weight_g : Decimal;
}.

Record Allocation := mkAllocation {
  quantity_allocated : Z;
  stock_warehouse_id : Z;
}.

Record OrderLine := mkOrderLine {
  line_pk : Z;
  line_attr : string → json;
  variant : option ProductVariant;
  product_name : string;
  variant_name : string;
  product_sku : option string;
  product_variant_id : option string;
  line_currency : string;
  line_sale_id : option string;
  line_voucher_code : option string;
  allocations : list Allocation;
  unit_price : TaxedMoney;
  total_price : TaxedMoney;
  undiscounted_unit_price : TaxedMoney;
  undiscounted_total_price : TaxedMoney;
}.

(** The [unit_price_net_amount] / [unit_price_gross_amount] columns back
    the [unit_price] money field. *)
Definition unit_price_net_amount (l : OrderLine) : Decimal := net (unit_price l).
Definition unit_price_gross_amount (l : OrderLine) : Decimal :=
  gross (unit_price l).

Record Stock := mkStock { stock_pk : Z; warehouse_id : Z }.

Definition opt_str (o : option string) : json :=
  match o with Some s => JStr s | None => JNull end.

Record FulfillmentLine := mkFulfillmentLine {
  fulfillment_line_pk : Z;
  fulfillment_line_attr : string → json;
  quantity : Z;
  order_line : OrderLine;
  stock : option Stock;
}.

Record Fulfillment := mkFulfillment {
  fulfillment_pk : Z;
  fulfillment_attr : string → json;
  fulfillment_status : string;
  fulfillment_created_at : string;
  (** [FulfillmentLine.objects.filter(fulfillment=fulfillment)] *)
  fulfillment_lines : list FulfillmentLine;
}.

Record Warehouse := mkWarehouse {
  warehouse_pk : Z;
  warehouse_attr : string → json;
  warehouse_address : option Obj;
}.

Record Payment := mkPayment {
  payment_pk : Z;
  payment_attr : string → json;
  charge_status : string;
  payment_created_at : string;
  payment_modified_at : string;
}.

Record Order := mkOrder {
  (** the order's UUID primary key, as its integer value *)
  order_id : Z;
  order_attr : string → json;
  order_status : string;
  order_currency : string;
  original_id : option Z;
  (** [order.get_customer_email()] *)
  customer_email : string;
  order_created_at : string;
  order_channel : Obj;
  order_shipping_method : option Obj;
  order_shipping_address : option Obj;
  order_billing_address : option Obj;
  order_collection_point : option Warehouse;
  order_lines : list OrderLine;
  fulfillments : list Fulfillment;
  payments : list Payment;
  discounts : list Obj;
  shipping_price : TaxedMoney;
  total : TaxedMoney;
  undiscounted_total : TaxedMoney;
}.

Record Checkout := mkCheckout {
  (** the checkout's UUID token (its primary key), as its integer value *)
  checkout_token : Z;
  checkout_attr : string → json;
  checkout_currency : string;
  checkout_created_at : string;
  checkout_channel : Obj;
  checkout_user : option Obj;
  checkout_billing_address : option Obj;
  checkout_shipping_address : option Obj;
  (** [checkout.shipping_address.country.code] *)
  checkout_shipping_country : string;
  checkout_shipping_method : option Obj;
  checkout_collection_point : option Warehouse;
}.

Record Page := mkPage {
  page_pk : Z;
  page_attr : string → json;
  published_at : json;
}.

Record Sale := mkSale { sale_pk : Z; sale_attr : string → json }.

(** [payment.interface.PaymentData], a dataclass: the three fields the
    composer reads, and the remaining ones as [asdict] renders them. *)
Record PaymentData := mkPaymentData {
  gateway : string;
  amount : Decimal;
  currency : string;
  other_fields : Dict;
}.

#[export] Instance OrderLine_Model : Model OrderLine :=
  {| object_name := fun _ => "OrderLine";
     pk := fun l => Some (line_pk l);
     attr := fun l f =>
       if decide (f = "product_name") then JStr (product_name l)
       else if decide (f = "variant_name") then JStr (variant_name l)
       else if decide (f = "product_sku") then opt_str (product_sku l)
       else if decide (f = "currency") then JStr (line_currency l)
       else if decide (f = "sale_id") then opt_str (line_sale_id l)
       else if decide (f = "voucher_code") then opt_str (line_voucher_code l)
       else line_attr l f |}.
#[export] Instance FulfillmentLine_Model : Model FulfillmentLine :=
  {| object_name := fun _ => "FulfillmentLine";
     pk := fun l => Some (fulfillment_line_pk l);
     attr := fun l f =>
       if decide (f = "quantity") then JInt (quantity l)
       else fulfillment_line_attr l f |}.
#[export] Instance Fulfillment_Model : Model Fulfillment :=
  {| object_name := fun _ => "Fulfillment";
     pk := fun f => Some (fulfillment_pk f);
     attr := fun x f =>
       if decide (f = "status") then JStr (fulfillment_status x)
       else fulfillment_attr x f |}.
#[export] Instance Warehouse_Model : Model Warehouse :=
  {| object_name := fun _ => "Warehouse";
     pk := fun w => Some (warehouse_pk w); attr := warehouse_attr |}.
#[export] Instance Payment_Model : Model Payment :=
  {| object_name := fun _ => "Payment";
     pk := fun p => Some (payment_pk p);
     attr := fun p f =>
       if decide (f = "charge_status") then JStr (charge_status p)
       else payment_attr p f |}.
#[export] Instance Order_Model : Model Order :=
  {| object_name := fun _ => "Order";
     pk := fun o => Some (order_id o);
     attr := fun o f =>
       if decide (f = "status") then JStr (order_status o)
       else order_attr o f |}.
#[export] Instance Checkout_Model : Model Checkout :=
  {| object_name := fun _ => "Checkout";
     pk := fun c => Some (checkout_token c); attr := checkout_attr |}.
#[export] Instance Page_Model : Model Page :=
  {| object_name := fun _ => "Page";
     pk := fun p => Some (page_pk p);
     attr := fun p f =>
       if decide (f = "published_at") then published_at p
       else page_attr p f |}.
#[export] Instance Sale_Model : Model Sale :=
  {| object_name := fun _ => "Sale";
     pk := fun s => Some (sale_pk s); attr := sale_attr |}.

(** ** Collaborators *)

Record Env := mkEnv {
  (** [graphene.Node.to_global_id(type, id)]; the id may be [None]. *)
  to_global_id : string → option Z → string;
  (** [timezone.now().isoformat()] *)
  now_isoformat : string;
  (** [saleor.__version__] *)
  version_tag : string;
  (** [graphene.utils.str_converters.to_camel_case] *)
  to_camel_case : string → string;
  (** [core.prices.quantize_price(amount, currency)] *)
  quantize_price : Decimal → string → Decimal;
  (** [core.taxes.include_taxes_in_prices()] *)
  include_taxes_in_prices : bool;
  (** [plugins.webhook.utils.from_payment_app_id(gateway)] *)
  from_payment_app_id : string → option PaymentAppData;
  (** the pricing engine, [order.calculations] *)
  order_line_unit : Order → OrderLine → list OrderLine → OrderTaxedPricesData;
  order_line_total : Order → OrderLine → list OrderLine → OrderTaxedPricesData;
  order_line_tax_rate : Order → OrderLine → list OrderLine → Decimal;
  order_shipping : Order → list OrderLine → TaxedMoney;
  order_shipping_tax_rate : Order → list OrderLine → Decimal;
  order_total : Order → list OrderLine → TaxedMoney;
  order_undiscounted_total : Order → list OrderLine → TaxedMoney;
  (** [serialize_checkout_lines(checkout, fetch_active_discounts())] *)
  serialize_checkout_lines : Checkout → list json;
  (** [Warehouse.objects.for_country(code).first()] *)
  warehouse_for_country : string → option Warehouse;
  (** [core.utils.anonymization] *)
  anonymize_order : Order → Order;
  anonymize_checkout : Checkout → Checkout;
}.

(** Modelled from the spec: [webhook.utils.get_base_price(price,
    use_gross_as_base_price)] (webhook/utils.py is not among the sources),
    the specification's [selectBasePrice]: the single base amount is the
    gross amount when the flag is set and the net amount otherwise. *)
Definition get_base_price (price : TaxedMoney) (use_gross : bool) : Decimal :=
  if use_gross then gross price else net price.

(** ** Requestor and meta envelope *)

Record User := mkUser { user_id : Z; user_email : string }.
Record App := mkApp { app_id : Z; name : string }.

(** [RequestorOrLazyObject]: a [User], Django's [AnonymousUser] (whose
    [id] is [None]) or an [App]. *)
Inductive Requestor :=
| RequestorUser (u : User)
| RequestorAnonymousUser
| RequestorApp (a : App).

Section Meta.
Variable E : Env.

Definition generate_requestor (requestor : option Requestor) : Dict :=
  match requestor with
  | None => [("id", JNull); ("type", JNull)]
  | Some (RequestorUser u) =>
      [("id", JStr (to_global_id E "User" (Some (user_id u))));
       ("type", JStr "user")]
  | Some RequestorAnonymousUser =>
      [("id", JStr (to_global_id E "User" None)); ("type", JStr "user")]
  | Some (RequestorApp a) => [("id", JStr (name a)); ("type", JStr "app")]
  end.

Definition meta_core (requestor_data : Dict) : Dict :=
  [("issued_at", JStr (now_isoformat E));
   ("version", JStr (version_tag E));
   ("issuing_principal", JObj requestor_data)].

Definition generate_meta
    (requestor_data : Dict) (camel_case : bool) (kwargs : Dict) : Dict :=
  let meta_result := dict_update (meta_core requestor_data) kwargs in
  if camel_case then
    fold_left
      (fun meta kv => dict_set (to_camel_case E kv.1) kv.2 meta)
      meta_result []
  else meta_result.

(** The envelope every composer stamps:
    [generate_meta(requestor_data=generate_requestor(requestor))]. *)
Definition stamp_meta (requestor : option Requestor) : json :=
  JObj (generate_meta (generate_requestor requestor) false []).
End Meta.

(** ** PayloadSerializer *)

(** A value of [extra_dict_data]: a constant or a callable on the entity. *)
Inductive ExtraValue (A : Type) :=
| Const (v : json)
| Callable (f : A → json).
Arguments Const {A} v.
Arguments Callable {A} f.

(** What an [additional_fields] accessor returns: no object, one related
    object, or a sequence of them. *)
Inductive Related :=
| RelNone
| RelOne (o : Obj)
| RelMany (os : list Obj).

Definition opt_related (o : option Obj) : Related :=
  match o with Some x => RelOne x | None => RelNone end.

Section Serializer.
Variable E : Env.

Definition eval_extra {A : Type} (x : ExtraValue A) (obj : A) : json :=
  match x with Const v => v | Callable f => f obj end.

(** Modelled from the spec: the field-copy step of
    [PayloadSerializer.serialize] (webhook/payload_serializers.py is not
    among the sources). Each record gets its id field from the id
    encoder, then the plain fields in order; a plain field named like the
    id key is not copied, since only an extra entry overrides the id. *)
Definition serialize_fields {A : Type} `{Model A}
    (obj_id_name : string) (fields : list string) (obj : A) : Dict :=
  dict_update
    [(obj_id_name, JStr (to_global_id E (object_name obj) (pk obj)))]
    (map (fun f => (f, attr obj f))
         (filter (fun f => f ≠ obj_id_name) fields)).

(** Modelled from the spec: an additional field recurses on the related
    object; an absent relation resolves to null, a sequence to a list. *)
Definition serialize_related (sub : list string) (r : Related) : json :=
  match r with
  | RelNone => JNull
  | RelOne o => JObj (serialize_fields "id" sub o)
  | RelMany os => JList (map (fun o => JObj (serialize_fields "id" sub o)) os)
  end.

(** Modelled from the spec: one record of [PayloadSerializer.serialize]:
    id and plain fields, then the additional fields, then the extra
    entries, which win over a plain field of the same name. *)
Definition get_dump_object {A : Type} `{Model A}
    (obj_id_name : string) (fields : list string)
    (additional_fields : list (string * ((A → Related) * list string)))
    (extra_dict_data : list (string * ExtraValue A)) (obj : A) : Dict :=
  let data := serialize_fields obj_id_name fields obj in
  let data :=
    dict_update data
      (map (fun x => (x.1, serialize_related x.2.2 (x.2.1 obj)))
           additional_fields) in
  dict_update data (map (fun x => (x.1, eval_extra x.2 obj)) extra_dict_data).

(** Modelled from the spec: [PayloadSerializer().serialize(queryset,
    fields=..., additional_fields=..., extra_dict_data=...,
    obj_id_name=...)], one record per entity in input order. *)
Definition serialize {A : Type} `{Model A}
    (queryset : list A) (obj_id_name : string) (fields : list string)
    (additional_fields : list (string * ((A → Related) * list string)))
    (extra_dict_data : list (string * ExtraValue A)) : list Dict :=
  map (get_dump_object obj_id_name fields additional_fields extra_dict_data)
      queryset.

(** Modelled from the spec: [core.prices.quantize_price_fields(model,
    fields, currency)] quantizes the named decimal columns in place. *)
Definition quantize_price_fields
    (attrs : string → json) (fields : list string) (currency : string)
    : string → json :=
  fun f =>
    if bool_decide (f ∈ fields) then
      match attrs f with
      | JDec d => JDec (quantize_price E d currency)
      | v => v
      end
    else attrs f.
End Serializer.

Definition records (ds : list Dict) : json := JList (JObj <$> ds).

(** ** Catalogue diff *)

(** [NodeCatalogueInfo] is [DefaultDict[str, Set[str]]]: objects live in a
    heap, so that one catalogue can be passed under two names, and reading
    a missing key stores and returns a fresh empty set. *)
Abbreviation Catalogue := (gmap string (gset string)).
Abbreviation Heap := (gmap nat (gmap string (gset string))).

(** [catalogue[key]] on a [defaultdict(set)]; [None] only for a reference
    that is not in the heap. *)
Definition defaultdict_getitem (σ : Heap) (c : nat) (key : string)
    : option (gset string * Heap) :=
  d ← σ !! c;
  match d !! key with
  | Some s => Some (s, σ)
  | None => Some (∅, <[c := <[key := ∅]> d]> σ)
  end.

(** [defaultdict(set)] *)
Definition new_defaultdict (σ : Heap) : nat * Heap :=
  let l := fresh (dom σ) in (l, <[l := ∅]> σ).

(** [list(current_catalogue[key] - previous_catalogue[key])]; the left
    operand is read first. The list of a set is [elements]. *)
Definition _calculate_added
    (σ : Heap) (previous_catalogue current_catalogue : nat) (key : string)
    : option (list string * Heap) :=
  '(cur, σ1) ← defaultdict_getitem σ current_catalogue key;
  '(prev, σ2) ← defaultdict_getitem σ1 previous_catalogue key;
  Some (elements (cur ∖ prev), σ2).

Definition _calculate_removed
    (σ : Heap) (previous_catalogue current_catalogue : nat) (key : string)
    : option (list string * Heap) :=
  _calculate_added σ current_catalogue previous_catalogue key.

(** What [catalogue[key]] reads: the stored set, or the empty set. *)
Definition view (d : gmap string (gset string)) (key : string) : gset string :=
  default ∅ (d !! key).

(** [σ'] holds every catalogue of [σ], each reading as before. *)
Definition same_views (σ σ' : Heap) : Prop :=
  ∀ c d, σ !! c = Some d → ∃ d', σ' !! c = Some d' ∧ ∀ k, view d' k = view d k.

Definition id_list (ids : list string) : json := JList (JStr <$> ids).

(** The added-list of [key] as the payload shows it. *)
Definition added_of (p c : gmap string (gset string)) (key : string) : json :=
  id_list (elements (view c key ∖ view p key)).

Section SalePayload.
Variable E : Env.

Definition generate_sale_payload
    (σ : Heap) (sale : Sale)
    (previous_catalogue current_catalogue : option nat)
    (requestor : option Requestor) : option (json * Heap) :=
  let '(previous_catalogue, σ) :=
    match previous_catalogue with
    | None => new_defaultdict σ
    | Some p => (p, σ)
    end in
  let '(current_catalogue, σ) :=
    match current_catalogue with
    | None => new_defaultdict σ
    | Some c => (c, σ)
    end in
  let meta := stamp_meta E requestor in
  '(categories_added, σ) ←
    _calculate_added σ previous_catalogue current_catalogue "categories";
  '(categories_removed, σ) ←
    _calculate_removed σ previous_catalogue current_catalogue "categories";
  '(collections_added, σ) ←
    _calculate_added σ previous_catalogue current_catalogue "collections";
  '(collections_removed, σ) ←
    _calculate_removed σ previous_catalogue current_catalogue "collections";
  '(products_added, σ) ←
    _calculate_added σ previous_catalogue current_catalogue "products";
  '(products_removed, σ) ←
    _calculate_removed σ previous_catalogue current_catalogue "products";
  '(variants_added, σ) ←
    _calculate_added σ previous_catalogue current_catalogue "variants";
  '(variants_removed, σ) ←
    _calculate_removed σ previous_catalogue current_catalogue "variants";
  Some
    (records
       (serialize E [sale] "id" ["id"] []
          [("meta", Const meta);
           ("categories_added", Const (id_list categories_added));
           ("categories_removed", Const (id_list categories_removed));
           ("collections_added", Const (id_list collections_added));
           ("collections_removed", Const (id_list collections_removed));
           ("products_added", Const (id_list products_added));
           ("products_removed", Const (id_list products_removed));
           ("variants_added", Const (id_list variants_added));
           ("variants_removed", Const (id_list variants_removed))]),
     σ).
End SalePayload.

(** ** Order lines *)

Definition ORDER_FIELDS : list string :=
  ["status"; "origin"; "shipping_method_name"; "collection_point_name";
   "weight"; "language_code"; "private_metadata"; "metadata"].

Definition ADDRESS_FIELDS : list string :=
  ["first_name"; "last_name"; "company_name"; "street_address_1";
   "street_address_2"; "city"; "city_area"; "postal_code"; "country";
   "country_area"; "phone"].

Definition ORDER_LINE_FIELDS : list string :=
  ["product_name"; "variant_name"; "translated_product_name";
   "translated_variant_name"; "product_sku"; "quantity"; "currency";
   "unit_discount_amount"; "unit_discount_type"; "unit_discount_reason";
   "sale_id"; "voucher_code"].

Definition _charge_taxes (order_line : OrderLine) : json :=
  match variant order_line with
  | None => JNull
  | Some v => JBool (charge_taxes (product v))
  end.

Definition get_product_metadata_for_order_line (line : OrderLine) : json :=
  match variant line with
  | None => JNull
  | Some v => product_metadata (product v)
  end.

Definition get_product_type_metadata_for_order_line (line : OrderLine) : json :=
  match variant line with
  | None => JNull
  | Some v => product_type_metadata (product_type (product v))
  end.

(** The line with its [line_attr] columns replaced (an in-place
    [setattr] on the model instance). *)
Definition with_line_attr (l : OrderLine) (a : string → json) : OrderLine :=
  mkOrderLine (line_pk l) a (variant l) (product_name l) (variant_name l)
    (product_sku l) (product_variant_id l) (line_currency l) (line_sale_id l)
    (line_voucher_code l) (allocations l) (unit_price l) (total_price l)
    (undiscounted_unit_price l) (undiscounted_total_price l).

Section OrderLines.
Variable E : Env.

Definition prepare_order_lines_allocations_payload (line : OrderLine) : json :=
  JList
    (map (fun a =>
            JObj [("quantity_allocated", JInt (quantity_allocated a));
                  ("warehouse_id",
                   JStr (to_global_id E "Warehouse"
                           (Some (stock_warehouse_id a))))])
         (allocations line)).

Definition ORDER_LINES_EXTRA_DICT_DATA : list (string * ExtraValue OrderLine) :=
  [("id", Callable (fun l => JStr (to_global_id E "OrderLine" (Some (line_pk l)))));
   ("product_variant_id", Callable (fun l => opt_str (product_variant_id l)));
   ("allocations", Callable prepare_order_lines_allocations_payload);
   ("charge_taxes", Callable _charge_taxes);
   ("product_metadata", Callable get_product_metadata_for_order_line);
   ("product_type_metadata", Callable get_product_type_metadata_for_order_line)].

(** [quantize_price_fields(line, ["unit_discount_amount"], line.currency)] *)
Definition quantize_line (l : OrderLine) : OrderLine :=
  with_line_attr l
    (quantize_price_fields E (line_attr l) ["unit_discount_amount"]
       (line_currency l)).

Definition _generate_order_lines_payload_with_taxes
    (order : Order) (lines : list OrderLine) : list Dict :=
  let lines := map quantize_line lines in
  let get_unit_price l := price_with_discounts (order_line_unit E order l lines) in
  let get_undiscounted_unit_price l :=
    undiscounted_price (order_line_unit E order l lines) in
  let get_total_price l := price_with_discounts (order_line_total E order l lines) in
  let get_undiscounted_total_price l :=
    undiscounted_price (order_line_total E order l lines) in
  let get_tax_rate l := order_line_tax_rate E order l lines in
  serialize E lines "id" ORDER_LINE_FIELDS []
    (ORDER_LINES_EXTRA_DICT_DATA ++
     [("unit_price_net_amount", Callable (fun l => JDec (net (get_unit_price l))));
      ("unit_price_gross_amount", Callable (fun l => JDec (gross (get_unit_price l))));
      ("total_price_net_amount", Callable (fun l => JDec (net (get_total_price l))));
      ("total_price_gross_amount",
       Callable (fun l => JDec (gross (get_total_price l))));
      ("undiscounted_unit_price_net_amount",
       Callable (fun l => JDec (net (get_undiscounted_unit_price l))));
      ("undiscounted_unit_price_gross_amount",
       Callable (fun l => JDec (gross (get_undiscounted_unit_price l))));
      ("undiscounted_total_price_net_amount",
       Callable (fun l => JDec (net (get_undiscounted_total_price l))));
      ("undiscounted_total_price_gross_amount",
       Callable (fun l => JDec (gross (get_undiscounted_total_price l))));
      ("tax_rate", Callable (fun l => JDec (get_tax_rate l)))]).

Definition _generate_order_lines_payload_without_taxes
    (order : Order) (lines : list OrderLine) (use_gross_as_base_price : bool)
    : list Dict :=
  let untaxed_price_amount price :=
    quantize_price E (get_base_price price use_gross_as_base_price)
      (order_currency order) in
  let lines := map quantize_line lines in
  serialize E lines "id" ORDER_LINE_FIELDS []
    (ORDER_LINES_EXTRA_DICT_DATA ++
     [("unit_price_base_amount",
       Callable (fun l => JDec (untaxed_price_amount (unit_price l))));
      ("total_price_base_amount",
       Callable (fun l => JDec (untaxed_price_amount (total_price l))));
      ("undiscounted_unit_price_base_amount",
       Callable (fun l => JDec (untaxed_price_amount (undiscounted_unit_price l))));
      ("undiscounted_total_price_base_amount",
       Callable (fun l => JDec (untaxed_price_amount (undiscounted_total_price l))))]).

Definition _generate_collection_point_payload (warehouse : Warehouse)
    : list Dict :=
  serialize E [warehouse] "id"
    ["name"; "email"; "click_and_collect_option"; "is_private"]
    [("address", (fun w => opt_related (warehouse_address w), ADDRESS_FIELDS))]
    [].

(** ** Fulfilment lines *)

Definition generate_fulfillment_lines_payload (fulfillment : Fulfillment)
    : list Dict :=
  let lines := fulfillment_lines fulfillment in
  serialize E lines "id" ["quantity"] []
    [("product_name", Callable (fun fl => JStr (product_name (order_line fl))));
     ("variant_name", Callable (fun fl => JStr (variant_name (order_line fl))));
     ("product_sku", Callable (fun fl => opt_str (product_sku (order_line fl))));
     ("product_variant_id",
      Callable (fun fl => opt_str (product_variant_id (order_line fl))));
     ("weight",
      Callable (fun fl =>
        match variant (order_line fl) with
        | Some v => JDec (weight_g v)
        | None => JNull
        end));
     ("weight_unit", Const (JStr "gram"));
     ("product_type",
      Callable (fun fl =>
        match variant (order_line fl) with
        | Some v => JStr (product_type_name (product_type (product v)))
        | None => JNull
        end));
     ("unit_price_net",
      Callable (fun fl =>
        JDec (quantize_price E (unit_price_net_amount (order_line fl))
                (line_currency (order_line fl)))));
     ("unit_price_gross",
      Callable (fun fl =>
        JDec (quantize_price E (unit_price_gross_amount (order_line fl))
                (line_currency (order_line fl)))));
     ("undiscounted_unit_price_net",
      Callable (fun fl =>
        JDec (quantize_price E (net (undiscounted_unit_price (order_line fl)))
                (line_currency (order_line fl)))));
     ("undiscounted_unit_price_gross",
      Callable (fun fl =>
        JDec (quantize_price E (gross (undiscounted_unit_price (order_line fl)))
                (line_currency (order_line fl)))));
     ("total_price_net_amount",
      Callable (fun fl =>
        JDec (dec_mul_int
                (quantize_price E (net (undiscounted_unit_price (order_line fl)))
                   (line_currency (order_line fl)))
                (quantity fl))));
     ("total_price_gross_amount",
      Callable (fun fl =>
        JDec (dec_mul_int
                (quantize_price E (gross (undiscounted_unit_price (order_line fl)))
                   (line_currency (order_line fl)))
                (quantity fl))));
     ("currency", Callable (fun fl => JStr (line_currency (order_line fl))));
     ("warehouse_id",
      Callable (fun fl =>
        match stock fl with
        | Some s => JStr (to_global_id E "Warehouse" (Some (warehouse_id s)))
        | None => JNull
        end));
     ("sale_id", Callable (fun fl => opt_str (line_sale_id (order_line fl))));
     ("voucher_code",
      Callable (fun fl => opt_str (line_voucher_code (order_line fl))))].
End OrderLines.

(** ** Order payload *)

Definition with_fulfillment_attr (f : Fulfillment) (a : string → json)
    : Fulfillment :=
  mkFulfillment (fulfillment_pk f) a (fulfillment_status f)
    (fulfillment_created_at f) (fulfillment_lines f).

Definition with_payment_attr (p : Payment) (a : string → json) : Payment :=
  mkPayment (payment_pk p) a (charge_status p) (payment_created_at p)
    (payment_modified_at p).

Definition with_obj_attr (o : Obj) (a : string → json) : Obj :=
  mkObj (obj_type o) (obj_pk o) a.

(** [json.loads(payload)[0]] *)
Definition first_record (ds : list Dict) : Result json :=
  match ds with
  | d :: _ => Ok (JObj d)
  | [] => Raise IndexError
  end.

(** A dict of already computed values used as [extra_dict_data]. *)
Definition const_items {A : Type} (d : Dict) : list (string * ExtraValue A) :=
  map (fun kv => (kv.1, Const kv.2)) d.

Section OrderPayload.
Variable E : Env.

Definition _generate_order_payment_payload (payments : list Payment)
    : list Dict :=
  serialize E payments "id"
    ["gateway"; "payment_method_type"; "cc_brand"; "is_active"; "partial";
     "charge_status"; "psp_reference"; "total"; "captured_amount";
     "currency"; "billing_email"; "billing_first_name"; "billing_last_name";
     "billing_company_name"; "billing_address_1"; "billing_address_2";
     "billing_city"; "billing_city_area"; "billing_postal_code";
     "billing_country_code"; "billing_country_area"]
    []
    [("created", Callable (fun p => JStr (payment_created_at p)));
     ("modified", Callable (fun p => JStr (payment_modified_at p)))].

Definition _generate_order_payload
    (order : Order) (requestor : option Requestor) (with_meta : bool)
    (order_prices_data : Dict) (order_lines_payload : list Dict)
    (included_taxes_in_prices : bool) : Result (list Dict) :=
  let fulfillment_fields :=
    ["status"; "tracking_number"; "shipping_refund_amount";
     "total_refund_amount"] in
  let fulfillment_price_fields :=
    ["shipping_refund_amount"; "total_refund_amount"] in
  let payment_price_fields := ["captured_amount"; "total"] in
  let discount_fields :=
    ["type"; "value_type"; "value"; "amount_value"; "name";
     "translated_name"; "reason"] in
  let discount_price_fields := ["amount_value"] in
  let channel_fields := ["slug"; "currency_code"] in
  let shipping_method_fields := ["name"; "type"; "currency"; "price_amount"] in
  let fulfillments :=
    map (fun f =>
           with_fulfillment_attr f
             (quantize_price_fields E (fulfillment_attr f)
                fulfillment_price_fields (order_currency order)))
        (fulfillments order) in
  let payments :=
    map (fun p =>
           with_payment_attr p
             (quantize_price_fields E (payment_attr p) payment_price_fields
                (order_currency order)))
        (payments order) in
  let discounts :=
    map (fun d =>
           with_obj_attr d
             (quantize_price_fields E (obj_attr d) discount_price_fields
                (order_currency order)))
        (discounts order) in
  let fulfillments_data :=
    serialize E fulfillments "id" fulfillment_fields []
      [("lines",
        Callable (fun f => records (generate_fulfillment_lines_payload E f)));
       ("created", Callable (fun f => JStr (fulfillment_created_at f)))] in
  collection_point ←
    match order_collection_point order with
    | Some w => first_record (_generate_collection_point_payload E w)
    | None => Ok JNull
    end;
  let extra_dict_data :=
    dict_of_items
      ([("id", JStr (to_global_id E "Order" (Some (order_id order))));
        ("token", JStr (uuid_str (order_id order)));
        ("user_email", JStr (customer_email order));
        ("created", JStr (order_created_at order));
        ("original", JStr (to_global_id E "Order" (original_id order)));
        ("lines", records order_lines_payload);
        ("included_taxes_in_prices", JBool included_taxes_in_prices)]
       ++ order_prices_data ++
       [("fulfillments", records fulfillments_data);
        ("collection_point", collection_point);
        ("payments", records (_generate_order_payment_payload payments))]) in
  let extra_dict_data :=
    if with_meta
    then dict_set "meta" (stamp_meta E requestor) extra_dict_data
    else extra_dict_data in
  Ok (serialize E [order] "id" ORDER_FIELDS
        [("channel", (fun o => RelOne (order_channel o), channel_fields));
         ("shipping_method",
          (fun o => opt_related (order_shipping_method o),
           shipping_method_fields));
         ("shipping_address",
          (fun o => opt_related (order_shipping_address o), ADDRESS_FIELDS));
         ("billing_address",
          (fun o => opt_related (order_billing_address o), ADDRESS_FIELDS));
         ("discounts", (fun _ => RelMany discounts, discount_fields))]
        (const_items extra_dict_data)).

Definition _generate_order_prices_data_with_taxes
    (order : Order) (lines : list OrderLine) : Dict :=
  let shipping := order_shipping E order lines in
  let shipping_tax_rate := order_shipping_tax_rate E order lines in
  let total := order_total E order lines in
  let undiscounted_total := order_undiscounted_total E order lines in
  [("shipping_price_net_amount", JDec (net shipping));
   ("shipping_price_gross_amount", JDec (gross shipping));
   ("shipping_tax_rate", JDec shipping_tax_rate);
   ("total_net_amount", JDec (net total));
   ("total_gross_amount", JDec (gross total));
   ("undiscounted_total_net_amount", JDec (net undiscounted_total));
   ("undiscounted_total_gross_amount", JDec (gross undiscounted_total))].

Definition _generate_order_prices_data_without_taxes
    (order : Order) (use_gross_as_base_price : bool) : Dict :=
  let untaxed_price_amount price :=
    quantize_price E (get_base_price price use_gross_as_base_price)
      (order_currency order) in
  [("shipping_price_base_amount",
    JDec (untaxed_price_amount (shipping_price order)));
   ("total_base_amount", JDec (untaxed_price_amount (total order)));
   ("undiscounted_total_base_amount",
    JDec (untaxed_price_amount (undiscounted_total order)))].

Definition generate_order_payload
    (order : Order) (requestor : option Requestor) (with_meta : bool)
    : Result (list Dict) :=
  let lines := order_lines order in
  _generate_order_payload order requestor with_meta
    (_generate_order_prices_data_with_taxes order lines)
    (_generate_order_lines_payload_with_taxes E order lines)
    (include_taxes_in_prices E).

Definition generate_order_payload_without_taxes
    (order : Order) (requestor : option Requestor) (with_meta : bool)
    : Result (list Dict) :=
  let lines := order_lines order in
  let included_taxes_in_prices := include_taxes_in_prices E in
  _generate_order_payload order requestor with_meta
    (_generate_order_prices_data_without_taxes order included_taxes_in_prices)
    (_generate_order_lines_payload_without_taxes E order lines
       included_taxes_in_prices)
    included_taxes_in_prices.
End OrderPayload.

(** ** Payment, checkout and page payloads *)

Definition with_checkout_attr (c : Checkout) (a : string → json) : Checkout :=
  mkCheckout (checkout_token c) a (checkout_currency c)
    (checkout_created_at c) (checkout_channel c) (checkout_user c)
    (checkout_billing_address c) (checkout_shipping_address c)
    (checkout_shipping_country c) (checkout_shipping_method c)
    (checkout_collection_point c).

(** [dataclasses.asdict(payment_data)] *)
Definition asdict (payment_data : PaymentData) : Dict :=
  [("gateway", JStr (gateway payment_data));
   ("amount", JDec (amount payment_data));
   ("currency", JStr (currency payment_data))]
  ++ other_fields payment_data.

Section OtherPayloads.
Variable E : Env.

Definition generate_payment_payload
    (payment_data : PaymentData) (requestor : option Requestor) : Dict :=
  let data := asdict payment_data in
  let data :=
    dict_set "amount"
      (JDec (quantize_price E (amount payment_data) (currency payment_data)))
      data in
  match from_payment_app_id E (gateway payment_data) with
  | Some payment_app_data =>
      let data :=
        dict_set "payment_method" (JStr (app_name payment_app_data)) data in
      dict_set "meta" (stamp_meta E requestor) data
  | None => data
  end.

Definition generate_checkout_payload
    (checkout : Checkout) (requestor : option Requestor)
    : Result (list Dict) :=
  let checkout_fields :=
    ["last_change"; "status"; "email"; "quantity"; "currency";
     "discount_amount"; "discount_name"; "language_code";
     "private_metadata"; "metadata"] in
  let checkout_price_fields := ["discount_amount"] in
  let checkout :=
    with_checkout_attr checkout
      (quantize_price_fields E (checkout_attr checkout) checkout_price_fields
         (checkout_currency checkout)) in
  let user_fields := ["email"; "first_name"; "last_name"] in
  let channel_fields := ["slug"; "currency_code"] in
  let shipping_method_fields := ["name"; "type"; "currency"; "price_amount"] in
  let lines_dict_data := serialize_checkout_lines E checkout in
  let warehouse :=
    match checkout_shipping_address checkout with
    | Some _ => warehouse_for_country E (checkout_shipping_country checkout)
    | None => None
    end in
  collection_point ←
    match checkout_collection_point checkout with
    | Some w => first_record (_generate_collection_point_payload E w)
    | None => Ok JNull
    end;
  Ok (serialize E [checkout] "token" checkout_fields
        [("channel", (fun c => RelOne (checkout_channel c), channel_fields));
         ("user", (fun c => opt_related (checkout_user c), user_fields));
         ("billing_address",
          (fun c => opt_related (checkout_billing_address c), ADDRESS_FIELDS));
         ("shipping_address",
          (fun c => opt_related (checkout_shipping_address c), ADDRESS_FIELDS));
         ("shipping_method",
          (fun c => opt_related (checkout_shipping_method c),
           shipping_method_fields));
         ("warehouse_address",
          (fun _ => match warehouse with
                    | Some w => opt_related (warehouse_address w)
                    | None => RelNone
                    end,
           ADDRESS_FIELDS))]
        [("lines", Const (JList lines_dict_data));
         ("collection_point", Const collection_point);
         ("meta", Const (stamp_meta E requestor));
         ("created", Const (JStr (checkout_created_at checkout)))]).

Definition generate_page_payload
    (page : Page) (requestor : option Requestor) : list Dict :=
  serialize E [page] "id"
    ["private_metadata"; "metadata"; "title"; "content"; "published_at";
     "is_published"; "updated_at"]
    []
    [("data", Const (stamp_meta E requestor));
     ("publication_date", Const (published_at page))].
End OtherPayloads.

(** ** Sample payloads *)

(** Modelled from the spec: the event names of [webhook.event_types] and
    the status values of the order, payment and fulfilment models (none
    of them among the sources), one name per event the sample generator
    knows; only that they are pairwise distinct matters here. *)
Module WebhookEventAsyncType.
Definition ORDER_CREATED := "order_created".
Definition ORDER_FULLY_PAID := "order_fully_paid".
Definition ORDER_FULFILLED := "order_fulfilled".
Definition ORDER_CANCELLED := "order_cancelled".
Definition ORDER_UPDATED := "order_updated".
Definition CHECKOUT_UPDATED := "checkout_updated".
Definition CHECKOUT_CREATED := "checkout_created".
Definition PAGE_CREATED := "page_created".
Definition PAGE_DELETED := "page_deleted".
Definition PAGE_UPDATED := "page_updated".
Definition CUSTOMER_CREATED := "customer_created".
Definition CUSTOMER_UPDATED := "customer_updated".
Definition PRODUCT_CREATED := "product_created".
Definition FULFILLMENT_CREATED := "fulfillment_created".
End WebhookEventAsyncType.

Module OrderStatus.
Definition UNFULFILLED := "unfulfilled".
Definition CANCELED := "canceled".
End OrderStatus.

Module ChargeStatus.
Definition FULLY_CHARGED := "fully-charged".
End ChargeStatus.

Module FulfillmentStatus.
Definition FULFILLED := "fulfilled".
End FulfillmentStatus.

(** The persisted entities the sample generator queries. A fulfilment row
    comes with the order it belongs to. *)
Record Database := mkDatabase {
  db_orders : list Order;
  db_products : list Product;
  db_checkouts : list Checkout;
  db_pages : list Page;
  db_fulfillments : list (Fulfillment * Order);
}.

(** [qs.order_by("?").first()]: some row of the query, chosen by the
    random source [rand]; [None] exactly when the query is empty. *)
Definition _get_sample_object {A : Type} (rand : nat) (qs : list A) : option A :=
  qs !! (rand mod length qs)%nat.

(** [checkout_data[0]["token"] = str(uuid.UUID(int=1))] *)
Definition _remove_token_from_checkout (checkout : list Dict)
    : Result (list Dict) :=
  match checkout with
  | d :: rest => Ok (dict_set "token" (JStr (uuid_str 1)) d :: rest)
  | [] => Raise IndexError
  end.

Section SamplePayload.
Variable E : Env.

(** The composers of the other event families and the fake-user
    generator of [core.utils.anonymization]; the sample generator only
    hands them an entity and returns what they produce. *)
Variable generate_fake_user : User.
Variable generate_customer_payload : User → Result json.
Variable generate_product_payload : Product → Result json.
Variable generate_fulfillment_payload : Fulfillment → Order → Result json.

Definition _generate_sample_order_payload
    (db : Database) (rand : nat) (event_name : string)
    : Result (option json) :=
  let order_qs := db_orders db in
  let order :=
    if decide (event_name = WebhookEventAsyncType.ORDER_CREATED) then
      _get_sample_object rand
        (filter (fun o => order_status o = OrderStatus.UNFULFILLED) order_qs)
    else if decide (event_name = WebhookEventAsyncType.ORDER_FULLY_PAID) then
      _get_sample_object rand
        (filter
           (fun o =>
              Exists (fun p => charge_status p = ChargeStatus.FULLY_CHARGED)
                     (payments o))
           order_qs)
    else if decide (event_name = WebhookEventAsyncType.ORDER_FULFILLED) then
      _get_sample_object rand
        (filter
           (fun o =>
              Exists
                (fun f => fulfillment_status f = FulfillmentStatus.FULFILLED)
                (fulfillments o))
           order_qs)
    else if decide (event_name ∈ [WebhookEventAsyncType.ORDER_CANCELLED;
                                  WebhookEventAsyncType.ORDER_UPDATED]) then
      _get_sample_object rand
        (filter (fun o => order_status o = OrderStatus.CANCELED) order_qs)
    else None in
  match order with
  | Some order =>
      let anonymized_order := anonymize_order E order in
      p ← generate_order_payload E anonymized_order None true;
      Ok (Some (records p))
  | None => Ok None
  end.

(** The local variable [payload] after the branches of
    [generate_sample_payload]: [None] when no branch has assigned it,
    [Some None] when it holds Python's [None]. *)
Definition sample_payload_binding
    (db : Database) (rand : nat) (event_name : string)
    : Result (option (option json)) :=
  let checkout_events :=
    [WebhookEventAsyncType.CHECKOUT_UPDATED;
     WebhookEventAsyncType.CHECKOUT_CREATED] in
  let pages_events :=
    [WebhookEventAsyncType.PAGE_CREATED; WebhookEventAsyncType.PAGE_DELETED;
     WebhookEventAsyncType.PAGE_UPDATED] in
  let user_events :=
    [WebhookEventAsyncType.CUSTOMER_CREATED;
     WebhookEventAsyncType.CUSTOMER_UPDATED] in
  if decide (event_name ∈ user_events) then
    let user := generate_fake_user in
    payload ← generate_customer_payload user;
    Ok (Some (Some payload))
  else if decide (event_name = WebhookEventAsyncType.PRODUCT_CREATED) then
    match _get_sample_object rand (db_products db) with
    | Some product =>
        payload ← generate_product_payload product;
        Ok (Some (Some payload))
    | None => Ok (Some None)
    end
  else if decide (event_name ∈ checkout_events) then
    match _get_sample_object rand (db_checkouts db) with
    | Some checkout =>
        let anonymized_checkout := anonymize_checkout E checkout in
        checkout_payload ← generate_checkout_payload E anonymized_checkout None;
        payload ← _remove_token_from_checkout checkout_payload;
        Ok (Some (Some (records payload)))
    | None => Ok None
    end
  else if decide (event_name ∈ pages_events) then
    match _get_sample_object rand (db_pages db) with
    | Some page => Ok (Some (Some (records (generate_page_payload E page None))))
    | None => Ok None
    end
  else if decide (event_name = WebhookEventAsyncType.FULFILLMENT_CREATED) then
    match _get_sample_object rand (db_fulfillments db) with
    | Some (fulfillment, order) =>
        payload ← generate_fulfillment_payload fulfillment
                    (anonymize_order E order);
        Ok (Some (Some payload))
    | None => Raise (AttributeError "order")
    end
  else
    payload ← _generate_sample_order_payload db rand event_name;
    Ok (Some payload).

(** [return json.loads(payload) if payload else None]; reading an
    unassigned local raises. *)
Definition generate_sample_payload
    (db : Database) (rand : nat) (event_name : string)
    : Result (option json) :=
  binding ← sample_payload_binding db rand event_name;
  match binding with
  | None => Raise (UnboundLocalError "payload")
  | Some None => Ok None
  | Some (Some payload) => Ok (Some payload)
  end.
End SamplePayload.

(** ** Classifying field names *)

(** [s.endswith(suffix)] *)
Definition ends_with (suffix s : string) : bool :=
  bool_decide
    (String.substring (String.length s - String.length suffix)
       (String.length suffix) s = suffix)
  && bool_decide (String.length suffix ≤ String.length s)%nat.

(** A price field, as the specification counts them (4.3 and 4.5, step
    3): what a composer injects from the pricing collaborator under one
    regime, that is one half of a net/gross pair, a base amount, or a tax
    rate. *)
Definition is_price_field (k : string) : bool :=
  ends_with "_net_amount" k || ends_with "_gross_amount" k
  || ends_with "_base_amount" k || ends_with "tax_rate" k.

Definition non_price_fields (d : Dict) : list string :=
  filter (fun k => is_price_field k = false) (keys d).

Definition price_fields (d : Dict) : list string :=
  filter (fun k => is_price_field k = true) (keys d).

(** ** Concrete collaborators and entities *)

Module Fixtures.
Definition dec (m e : Z) : Decimal := mkDecimal m e.
Definition money (n g : Z) : TaxedMoney := mkTaxedMoney (dec n (-2)) (dec g (-2)).

(** Rounding to two decimal places, half to even. *)
Definition quantize2 (d : Decimal) (_ : string) : Decimal :=
  if Z.leb (-2) (exponent d) then
    mkDecimal (mantissa d * 10 ^ (exponent d + 2)) (-2)
  else
    let scale := 10 ^ (- 2 - exponent d) in
    let q := mantissa d / scale in
    let r := mantissa d mod scale in
    let q' :=
      if Z.ltb (2 * r) scale then q
      else if Z.ltb scale (2 * r) then q + 1
      else if Z.even q then q else q + 1 in
    mkDecimal q' (-2).

Definition global_id (type : string) (id : option Z) : string :=
  type +:+ ":" +:+ match id with Some z => pretty z | None => "None" end.

Definition parse_app_id (gateway : string) : option PaymentAppData :=
  if decide (gateway = "app:7:credit-card")
  then Some (mkPaymentAppData 7 "credit-card") else None.

Definition no_attr : string → json := fun _ => JNull.
Definition channel : Obj := mkObj "Channel" (Some 1) no_attr.

Definition line_prices (o : Order) (l : OrderLine) (ls : list OrderLine)
    : OrderTaxedPricesData :=
  mkOrderTaxedPricesData (unit_price l) (undiscounted_unit_price l).

Definition env : Env :=
  {| to_global_id := global_id;
     now_isoformat := "2022-06-01T12:00:00+00:00";
     version_tag := "3.4.0";
     to_camel_case := graphene_to_camel_case;
     quantize_price := quantize2;
     include_taxes_in_prices := true;
     from_payment_app_id := parse_app_id;
     order_line_unit := line_prices;
     order_line_total := fun _ l _ =>
       mkOrderTaxedPricesData (total_price l) (undiscounted_total_price l);
     order_line_tax_rate := fun _ _ _ => dec 20 (-2);
     order_shipping := fun o _ => shipping_price o;
     order_shipping_tax_rate := fun _ _ => dec 20 (-2);
     order_total := fun o _ => total o;
     order_undiscounted_total := fun o _ => undiscounted_total o;
     serialize_checkout_lines := fun _ => [];
     warehouse_for_country := fun _ => None;
     anonymize_order := fun o => o;
     anonymize_checkout := fun c => c |}.

(** A line without a variant: quantity 2, unit price 10.00 / 12.00. *)
Definition line : OrderLine :=
  {| line_pk := 5; line_attr := no_attr; variant := None;
     product_name := "Mug"; variant_name := "Blue"; product_sku := None;
     product_variant_id := None; line_currency := "USD";
     line_sale_id := None; line_voucher_code := None; allocations := [];
     unit_price := money 900 1080; total_price := money 1800 2160;
     undiscounted_unit_price := money 1000 1200;
     undiscounted_total_price := money 2000 2400 |}.

Definition fulfillment_line : FulfillmentLine :=
  {| fulfillment_line_pk := 8; fulfillment_line_attr := no_attr;
     quantity := 2; order_line := line; stock := None |}.

Definition fulfillment : Fulfillment :=
  {| fulfillment_pk := 3; fulfillment_attr := no_attr;
     fulfillment_status := "fulfilled";
     fulfillment_created_at := "2022-06-01T10:00:00+00:00";
     fulfillment_lines := [fulfillment_line] |}.

(** An order with no shipping method and no collection point. *)
Definition order : Order :=
  {| order_id := 42; order_attr := no_attr; order_status := "unfulfilled";
     order_currency := "USD"; original_id := None;
     customer_email := "customer@example.com";
     order_created_at := "2022-06-01T09:00:00+00:00";
     order_channel := channel; order_shipping_method := None;
     order_shipping_address := None; order_billing_address := None;
     order_collection_point := None; order_lines := [line];
     fulfillments := [fulfillment]; payments := []; discounts := [];
     shipping_price := money 500 600; total := money 2300 2760;
     undiscounted_total := money 2500 3000 |}.

Definition checkout : Checkout :=
  {| checkout_token := 123456789; checkout_attr := no_attr;
     checkout_currency := "USD";
     checkout_created_at := "2022-06-01T08:00:00+00:00";
     checkout_channel := channel; checkout_user := None;
     checkout_billing_address := None; checkout_shipping_address := None;
     checkout_shipping_country := "US"; checkout_shipping_method := None;
     checkout_collection_point := None |}.

Definition sale : Sale := mkSale 9 no_attr.

Definition empty_db : Database := mkDatabase [] [] [] [] [].
Definition checkout_db : Database := mkDatabase [] [] [checkout] [] [].

Definition fake_user : User := mkUser 0 "fake@example.com".
Definition no_payload {A : Type} : A → Result json := fun _ => Ok (JList []).
Definition no_payload2 {A B : Type} : A → B → Result json :=
  fun _ _ => Ok (JList []).

Definition card_payment : PaymentData :=
  {| gateway := "app:7:credit-card"; amount := dec 12345 (-3);
     currency := "USD"; other_fields := [("token", JStr "tok")] |}.

(** Two catalogues on the heap: [{products: {A, B}}] at 0 and
    [{products: {B, C}}] at 1. *)
Definition heap : Heap :=
  {[ 0%nat := {[ "products" := {[ "A"; "B" ]} ]};
     1%nat := {[ "products" := {[ "B"; "C" ]} ]} ]}.
End Fixtures.

(** ** Further composers *)

(** [shipping.interface.ShippingMethodData], as the composer reads it. *)
Record ShippingMethodData := mkShippingMethodData {
  graphql_id : string;
  method_price_amount : Decimal;
  method_price_currency : string;
  method_name : string;
  maximum_order_weight : json;
  minimum_order_weight : json;
  maximum_delivery_days : json;
  minimum_delivery_days : json;
}.

(** A translation row: the translated object, the translated key/value
    pairs in order, and, for an [AttributeValueTranslation] only, its
    translation context (a dict from field name to an id or [None]). *)
Record Translation := mkTranslation {
  translated_object_type : string;
  translated_object_id : Z;
  translation_language_code : string;
  translated_keys : Dict;
  attribute_value_context : option (gmap string (option Z));
}.

Definition additional_id_fields : list (string * string) :=
  [("product_id", "Product"); ("product_variant_id", "ProductVariant");
   ("attribute_id", "Attribute"); ("page_id", "Page");
   ("page_type_id", "PageType")].

(** The checkout as [generate_checkout_payload_for_tax_calculation] reads
    it: the [CheckoutInfo] relations and the money columns of the row. *)
Record CheckoutUser := mkCheckoutUser { checkout_user_id : Z; user_metadata : json }.

Record CheckoutInfo := mkCheckoutInfo {
  info_checkout : Checkout;
  info_shipping_address : option Obj;
  info_billing_address : option Obj;
  info_user : option CheckoutUser;
  checkout_total : TaxedMoney;
  checkout_shipping_price : TaxedMoney;
  checkout_discount_amount : Decimal;
  checkout_discount_name : json;
}.

(** Collaborators of the composers below that live outside payloads.py. *)
Record Lookups := mkLookups {
  (** [order.utils.get_order_country(order)] *)
  get_order_country : Order → string;
  (** [stock.warehouse] *)
  stock_warehouse : Stock → Warehouse;
  (** [serialize_checkout_lines_for_tax_calculation(checkout_info, lines,
      included_taxes_in_prices)] *)
  serialize_checkout_lines_for_tax_calculation
    : CheckoutInfo → list json → bool → list json;
}.

(** Truth value of a [Decimal]: zero is false. *)
Definition decimal_truthy (d : Decimal) : bool := negb (mantissa d =? 0)%Z.

Section FurtherComposers.
Variable E : Env.
Variable L : Lookups.

(** [if object_id := context.get(key, None)]: a missing key, [None] and
    the id 0 are all false. *)
Definition context_id (context : gmap string (option Z)) (key : string)
    : option Z :=
  match context !! key with
  | Some (Some object_id) => if decide (object_id = 0) then None else Some object_id
  | _ => None
  end.

Definition process_translation_context (context : gmap string (option Z))
    : Dict :=
  fold_left
    (fun result kt =>
       match context_id context kt.1 with
       | Some object_id =>
           dict_set kt.1 (JStr (to_global_id E kt.2 (Some object_id))) result
       | None => dict_set kt.1 JNull result
       end)
    additional_id_fields [].

Definition generate_translation_payload
    (translation : Translation) (requestor : option Requestor) : Dict :=
  let object_type := translated_object_type translation in
  let object_id := translated_object_id translation in
  let translated_keys :=
    map (fun kv => JObj [("key", JStr kv.1); ("value", kv.2)])
        (translated_keys translation) in
  let context :=
    match attribute_value_context translation with
    | Some ctx => Some (process_translation_context ctx)
    | None => None
    end in
  let translation_data :=
    [("id", JStr (to_global_id E object_type (Some object_id)));
     ("language_code", JStr (translation_language_code translation));
     ("type", JStr object_type);
     ("keys", JList translated_keys);
     ("meta", stamp_meta E requestor)] in
  match context with
  | Some (c :: cs) => dict_update translation_data (c :: cs)
  | _ => translation_data
  end.

Definition _generate_payload_for_shipping_method (method : ShippingMethodData)
    : Dict :=
  [("id", JStr (graphql_id method));
   ("price", JDec (method_price_amount method));
   ("currency", JStr (method_price_currency method));
   ("name", JStr (method_name method));
   ("maximum_order_weight", maximum_order_weight method);
   ("minimum_order_weight", minimum_order_weight method);
   ("maximum_delivery_days", maximum_delivery_days method);
   ("minimum_delivery_days", minimum_delivery_days method)].

Definition generate_excluded_shipping_methods_for_order_payload
    (order : Order) (available_shipping_methods : list ShippingMethodData)
    : Result Dict :=
  order_payload ← generate_order_payload_without_taxes E order None true;
  order_data ← first_record order_payload;
  Ok [("order", order_data);
      ("shipping_methods",
       JList (map (fun m => JObj (_generate_payload_for_shipping_method m))
                  available_shipping_methods))].

Definition generate_excluded_shipping_methods_for_checkout_payload
    (checkout_info : CheckoutInfo) (lines : list json)
    (available_shipping_methods : list ShippingMethodData) : Result Dict :=
  checkout_payload ←
    generate_checkout_payload E (info_checkout checkout_info) None;
  checkout_data ← first_record checkout_payload;
  Ok [("checkout", checkout_data);
      ("shipping_methods",
       JList (map (fun m => JObj (_generate_payload_for_shipping_method m))
                  available_shipping_methods))].

Definition generate_list_gateways_payload
    (currency : option string) (checkout : option Checkout) : Result Dict :=
  checkout_data ←
    match checkout with
    | Some c =>
        checkout_payload ← generate_checkout_payload E c None;
        first_record checkout_payload
    | None => Ok JNull
    end;
  Ok [("checkout", checkout_data); ("currency", opt_str currency)].

(** [generate_fulfillment_payload(fulfillment)], with [fulfillment.order]
    as [order]; [fulfillment.lines.first()] is the head of the lines. The
    [warehouse_address] accessor reads [warehouse.address] and raises when
    no warehouse was found. *)
Definition generate_fulfillment_payload
    (fulfillment : Fulfillment) (order : Order) (requestor : option Requestor)
    : Result (list Dict) :=
  let fulfillment_fields :=
    ["status"; "tracking_code"; "order__user_email"; "shipping_refund_amount";
     "total_refund_amount"] in
  let fulfillment_price_fields :=
    ["shipping_refund_amount"; "total_refund_amount"] in
  let order_country := get_order_country L order in
  let fulfillment :=
    with_fulfillment_attr fulfillment
      (quantize_price_fields E (fulfillment_attr fulfillment)
         fulfillment_price_fields (order_currency order)) in
  let warehouse :=
    match head (fulfillment_lines fulfillment) with
    | Some fulfillment_line =>
        match stock fulfillment_line with
        | Some s => Some (stock_warehouse L s)
        | None => warehouse_for_country E order_country
        end
    | None => warehouse_for_country E order_country
    end in
  order_payload ← generate_order_payload E order None false;
  order_data ← first_record order_payload;
  let lines := records (generate_fulfillment_lines_payload E fulfillment) in
  let meta := stamp_meta E requestor in
  match warehouse with
  | None => Raise (AttributeError "address")
  | Some w =>
      Ok (serialize E [fulfillment] "id" fulfillment_fields
            [("warehouse_address",
              (fun _ => opt_related (warehouse_address w), ADDRESS_FIELDS))]
            [("order", Const order_data); ("lines", Const lines);
             ("meta", Const meta)])
  end.

Definition generate_checkout_payload_for_tax_calculation
    (checkout_info : CheckoutInfo) (lines : list json)
    (requestor : option Requestor) : list Dict :=
  let checkout := info_checkout checkout_info in
  let included_taxes_in_prices := include_taxes_in_prices E in
  let checkout_fields := ["currency"; "private_metadata"; "metadata"] in
  let address :=
    match info_shipping_address checkout_info with
    | Some a => Some a
    | None => info_billing_address checkout_info
    end in
  let total_amount :=
    quantize_price E
      (get_base_price (checkout_total checkout_info) included_taxes_in_prices)
      (checkout_currency checkout) in
  let user := info_user checkout_info in
  let user_id :=
    match user with
    | Some u => JStr (to_global_id E "User" (Some (checkout_user_id u)))
    | None => JNull
    end in
  let user_public_metadata :=
    match user with Some u => user_metadata u | None => JObj [] end in
  let shipping_method_name :=
    match checkout_shipping_method checkout with
    | Some m => obj_attr m "name"
    | None => JNull
    end in
  let shipping_method_amount :=
    quantize_price E
      (get_base_price (checkout_shipping_price checkout_info)
         included_taxes_in_prices)
      (checkout_currency checkout) in
  let discount_amount :=
    quantize_price E (checkout_discount_amount checkout_info)
      (checkout_currency checkout) in
  let discount_name := checkout_discount_name checkout_info in
  let discounts :=
    if decimal_truthy discount_amount
    then [JObj [("name", discount_name); ("amount", JDec discount_amount)]]
    else [] in
  let lines_dict_data :=
    serialize_checkout_lines_for_tax_calculation L checkout_info lines
      included_taxes_in_prices in
  serialize E [checkout] "id" checkout_fields
    [("channel", (fun c => RelOne (checkout_channel c), ["slug"; "currency_code"]));
     ("address", (fun _ => opt_related address, ADDRESS_FIELDS))]
    [("user_id", Const user_id);
     ("user_public_metadata", Const user_public_metadata);
     ("included_taxes_in_prices", Const (JBool included_taxes_in_prices));
     ("total_amount", Const (JDec total_amount));
     ("shipping_amount", Const (JDec shipping_method_amount));
     ("shipping_name", Const shipping_method_name);
     ("discounts", Const (JList discounts));
     ("lines", Const (JList lines_dict_data))].
End FurtherComposers.

(** ** Further concrete entities *)

Module MoreFixtures.
Definition warehouse : Warehouse := mkWarehouse 11 Fixtures.no_attr None.

Definition lookups : Lookups :=
  {| get_order_country := fun _ => "US"; stock_warehouse := fun _ => warehouse;
     serialize_checkout_lines_for_tax_calculation := fun _ lines _ => lines |}.

Definition stocked_line : FulfillmentLine :=
  {| fulfillment_line_pk := 9; fulfillment_line_attr := Fixtures.no_attr;
     quantity := 1; order_line := Fixtures.line; stock := Some (mkStock 4 11) |}.

Definition stocked_fulfillment : Fulfillment :=
  {| fulfillment_pk := 6; fulfillment_attr := Fixtures.no_attr;
     fulfillment_status := "fulfilled";
     fulfillment_created_at := "2022-06-02T10:00:00+00:00";
     fulfillment_lines := [stocked_line] |}.

Definition page : Page := mkPage 2 Fixtures.no_attr (JStr "2022-05-01").

Definition page_db : Database := mkDatabase [] [] [] [page] [].
Definition order_db : Database := mkDatabase [Fixtures.order] [] [] [] [].

(** A checkout without addresses or user and with a zero discount. *)
Definition checkout_info : CheckoutInfo :=
  {| info_checkout := Fixtures.checkout; info_shipping_address := None;
     info_billing_address := None; info_user := None;
     checkout_total := Fixtures.money 1000 1200;
     checkout_shipping_price := Fixtures.money 500 600;
     checkout_discount_amount := Fixtures.dec 0 (-3);
     checkout_discount_name := JNull |}.

(** A translation context with a product id, and a page id of 0. *)
Definition context : gmap string (option Z) :=
  {[ "product_id" := Some 5; "page_id" := Some 0 ]}.
End MoreFixtures.

(** * Properties *)

(** ** Lemmas on dictionaries *)

Lemma dict_get_set (k k' : string) (v : json) (d : Dict) :
  dict_get k' (dict_set k v d) =
  if decide (k' = k) then Some v else dict_get k' d.
Proof.
  induction d as [|[k0 v0] r IH]; simpl.
  - destruct (decide (k' = k)); reflexivity.
  - destruct (decide (k = k0)) as [->|Hne]; simpl.
    + destruct (decide (k' = k0)); reflexivity.
    + rewrite IH.
      destruct (decide (k' = k0)) as [->|]; [|reflexivity].
      destruct (decide (k0 = k)); congruence.
Qed.

Lemma dict_get_update (k : string) (e d : Dict) :
  dict_get k (dict_update d e) =
  match dict_get k (dict_of_items e) with
  | Some v => Some v
  | None => dict_get k d
  end.
Proof.
  unfold dict_of_items, dict_update.
  revert d. induction e as [|[k0 v0] e IH]; intros d; simpl; [reflexivity|].
  rewrite (IH (dict_set k0 v0 d)), (IH [(k0, v0)]).
  destruct (fold_left _ e []) eqn:Heq; simpl.
  - rewrite dict_get_set. destruct (decide (k = k0)); reflexivity.
  - destruct p as [k1 v1]. destruct (decide (k = k1)); [reflexivity|].
    destruct (dict_get k l); [reflexivity|].
    rewrite dict_get_set. destruct (decide (k = k0)); reflexivity.
Qed.

Lemma dict_get_None (k : string) (d : Dict) :
  dict_get k d = None ↔ k ∉ keys d.
Proof.
  unfold keys. induction d as [|[k0 v0] r IH]; simpl.
  - split; [intros _; apply not_elem_of_nil | reflexivity].
  - rewrite not_elem_of_cons.
    destruct (decide (k = k0)) as [->|Hne]; split; try congruence.
    + intros [? _]; congruence.
    + intros H. split; [assumption | apply IH, H].
    + intros [_ H]. apply IH, H.
Qed.

Lemma dict_get_is_Some (k : string) (d : Dict) :
  is_Some (dict_get k d) ↔ k ∈ keys d.
Proof.
  rewrite <- not_eq_None_Some, dict_get_None.
  split; [apply dec_stable | tauto].
Qed.

Lemma elem_of_keys_set (k k' : string) (v : json) (d : Dict) :
  k' ∈ keys (dict_set k v d) ↔ k' = k ∨ k' ∈ keys d.
Proof.
  rewrite <- !dict_get_is_Some, dict_get_set.
  destruct (decide (k' = k)) as [->|Hne].
  - split; [auto | intros _; eexists; reflexivity].
  - tauto.
Qed.

Lemma elem_of_keys_update (k : string) (e d : Dict) :
  k ∈ keys (dict_update d e) ↔ k ∈ keys d ∨ k ∈ keys e.
Proof.
  unfold dict_update. revert d.
  induction e as [|[k0 v0] e IH]; intros d; simpl.
  - change (keys []) with (@nil string). rewrite elem_of_nil. tauto.
  - rewrite IH, elem_of_keys_set.
    change (keys ((k0, v0) :: e)) with (k0 :: keys e).
    rewrite elem_of_cons. tauto.
Qed.

(** A plain field never replaces the id the encoder gives a record. *)
Lemma serialize_fields_id {A : Type} `{Model A}
    (E : Env) (obj_id_name : string) (fields : list string) (obj : A) :
  dict_get obj_id_name (serialize_fields E obj_id_name fields obj)
  = Some (JStr (to_global_id E (object_name obj) (pk obj))).
Proof.
  unfold serialize_fields. rewrite dict_get_update.
  destruct (dict_get obj_id_name (dict_of_items _)) as [v|] eqn:Hd.
  - exfalso.
    assert (obj_id_name ∈ keys (dict_of_items
              (map (fun f => (f, attr obj f))
                   (filter (fun f => f ≠ obj_id_name) fields)))) as Hin
      by (apply dict_get_is_Some; eauto).
    unfold dict_of_items in Hin. apply elem_of_keys_update in Hin as [Hin|Hin].
    + change (keys []) with (@nil string) in Hin. by apply elem_of_nil in Hin.
    + unfold keys in Hin. apply list_elem_of_fmap in Hin as ([k w] & -> & Hin).
      apply list_elem_of_fmap in Hin as (f & Heq & Hf).
      injection Heq as -> ->.
      apply list_elem_of_filter in Hf as [Hne _]. by apply Hne.
  - simpl. by rewrite decide_True.
Qed.

Example uuid_str_of_one : uuid_str 1 = "00000000-0000-0000-0000-000000000001".
Proof. vm_compute. reflexivity. Qed.
Example to_camel_case_issued_at : graphene_to_camel_case "issued_at" = "issuedAt".
Proof. vm_compute. reflexivity. Qed.
Example to_camel_case_issuing_principal : graphene_to_camel_case "issuing_principal" = "issuingPrincipal".
Proof. vm_compute. reflexivity. Qed.
Example quantize2_rounds_half_even : Fixtures.quantize2 (Fixtures.dec 12345 (-3)) "USD" = Fixtures.dec 1234 (-2).
Proof. vm_compute. reflexivity. Qed.
Example is_price_field_examples : is_price_field "total_net_amount" = true /\ is_price_field "shipping_tax_rate" = true /\ is_price_field "tax_rate" = true /\ is_price_field "unit_discount_amount" = false /\ is_price_field "amount" = false.
Proof. vm_compute. auto. Qed.
Example global_id_user : Fixtures.global_id "User" (Some 12) = "User:12".
Proof. vm_compute. reflexivity. Qed.

(** ** Requestor and meta envelope *)

(** C4: [generate_requestor] has exactly three outcomes: an absent
    principal gives null id and type, a user (identified or anonymous)
    gives the encoded "User" id with type "user", and an app gives its
    name with type "app". *)
Theorem generate_requestor_three_variants (E : Env) :
  generate_requestor E None = [("id", JNull); ("type", JNull)]
  ∧ (∀ u : User,
       generate_requestor E (Some (RequestorUser u)) =
       [("id", JStr (to_global_id E "User" (Some (user_id u))));
        ("type", JStr "user")])
  ∧ generate_requestor E (Some RequestorAnonymousUser) =
    [("id", JStr (to_global_id E "User" None)); ("type", JStr "user")]
  ∧ (∀ a : App,
       generate_requestor E (Some (RequestorApp a)) =
       [("id", JStr (name a)); ("type", JStr "app")])
  ∧ (∀ r : option Requestor,
       dict_get "type" (generate_requestor E r) = Some JNull
       ∨ dict_get "type" (generate_requestor E r) = Some (JStr "user")
       ∨ dict_get "type" (generate_requestor E r) = Some (JStr "app")).
Proof.
  repeat split; try reflexivity.
  intros [[u| |a]|]; simpl; auto.
Qed.

Lemma elem_of_keys_fold_set (f : string → string) (k' : string) (l d : Dict) :
  k' ∈ keys (fold_left (fun meta kv => dict_set (f kv.1) kv.2 meta) l d)
  ↔ k' ∈ keys d ∨ ∃ k, k ∈ keys l ∧ k' = f k.
Proof.
  revert d. induction l as [|[k0 v0] l IH]; intros d; simpl.
  - split; [auto|]. intros [H|(k & Hk & _)]; [exact H|].
    change (keys []) with (@nil string) in Hk. by apply elem_of_nil in Hk.
  - rewrite IH, elem_of_keys_set.
    change (keys ((k0, v0) :: l)) with (k0 :: keys l).
    split.
    + intros [[->|H]|(k & Hk & ->)]; eauto.
      * right. exists k0. split; [apply elem_of_cons; auto|reflexivity].
      * right. exists k. split; [apply elem_of_cons; auto|reflexivity].
    + intros [H|(k & Hk & ->)]; [auto|].
      apply elem_of_cons in Hk as [->|Hk]; eauto.
Qed.

Lemma dict_get_fold_set_last (f : string → string) (c : string) (l d : Dict) :
  dict_get c (fold_left (fun meta kv => dict_set (f kv.1) kv.2 meta) l d)
  = match last (filter (fun kv => f kv.1 = c) l) with
    | Some kv => Some kv.2
    | None => dict_get c d
    end.
Proof.
  revert d. induction l as [|[k0 v0] l IH]; intros d; simpl; [reflexivity|].
  rewrite IH, dict_get_set. destruct (decide (f k0 = c)) as [Heq|Hne].
  - rewrite filter_cons_True by exact Heq. rewrite last_cons.
    destruct (last (filter _ l)); [reflexivity|].
    by rewrite decide_True.
  - rewrite filter_cons_False by exact Hne.
    destruct (last (filter _ l)); [reflexivity|].
    by rewrite decide_False by congruence.
Qed.

Lemma dict_get_fold_set_fresh (f : string → string) (c : string) (l d : Dict) :
  (∀ k, k ∈ keys l → f k ≠ c) →
  dict_get c (fold_left (fun meta kv => dict_set (f kv.1) kv.2 meta) l d)
  = dict_get c d.
Proof.
  revert d. induction l as [|[k0 v0] l IH]; intros d Hf; simpl; [reflexivity|].
  change (keys ((k0, v0) :: l)) with (k0 :: keys l) in Hf.
  rewrite IH by (intros k Hk; apply Hf, elem_of_cons; auto).
  rewrite dict_get_set. rewrite decide_False; [reflexivity|].
  intros Hc. apply (Hf k0); [apply elem_of_cons; by left | by symmetry].
Qed.

Lemma dict_get_fold_set_inj (f : string → string) (k : string) (v : json)
    (l d : Dict) :
  NoDup (keys l) →
  dict_get k l = Some v →
  (∀ k', k' ∈ keys l → f k' = f k → k' = k) →
  dict_get (f k) (fold_left (fun meta kv => dict_set (f kv.1) kv.2 meta) l d)
  = Some v.
Proof.
  revert d. induction l as [|[k0 v0] l IH]; intros d Hnd Hget Hinj;
    simpl in *; [discriminate|].
  change (keys ((k0, v0) :: l)) with (k0 :: keys l) in Hnd, Hinj.
  apply NoDup_cons in Hnd as [Hk0 Hnd].
  destruct (decide (k = k0)) as [->|Hne].
  - injection Hget as ->.
    rewrite dict_get_fold_set_fresh.
    + rewrite dict_get_set. by rewrite decide_True.
    + intros k' Hk' Heq. apply Hk0.
      rewrite <- (Hinj k'); [exact Hk'| apply elem_of_cons; auto | exact Heq].
  - apply IH; [exact Hnd | exact Hget |].
    intros k' Hk'. apply Hinj, elem_of_cons. auto.
Qed.

Lemma NoDup_keys_set (k : string) (v : json) (d : Dict) :
  NoDup (keys d) → NoDup (keys (dict_set k v d)).
Proof.
  induction d as [|[k0 v0] r IH]; simpl; intros Hnd.
  - apply NoDup_singleton.
  - change (keys ((k0, v0) :: r)) with (k0 :: keys r) in Hnd.
    apply NoDup_cons in Hnd as [Hk0 Hnd].
    destruct (decide (k = k0)) as [->|Hne].
    + change (keys ((k0, v) :: r)) with (k0 :: keys r).
      by apply NoDup_cons.
    + change (keys ((k0, v0) :: dict_set k v r))
        with (k0 :: keys (dict_set k v r)).
      apply NoDup_cons. split; [|by apply IH].
      rewrite elem_of_keys_set. intros [->|H]; [by apply Hne | by apply Hk0].
Qed.

Lemma NoDup_keys_update (d e : Dict) :
  NoDup (keys d) → NoDup (keys (dict_update d e)).
Proof.
  unfold dict_update. revert d.
  induction e as [|[k0 v0] e IH]; intros d Hnd; simpl; [exact Hnd|].
  by apply IH, NoDup_keys_set.
Qed.

(** C3, as the code has it: without the camel-case option every key of
    the envelope holds the caller's extension value when the extension
    has that key and the core value otherwise, so an extension named
    [issued_at], [version] or [issuing_principal] replaces the core entry.
    With the option, the keys of the result are exactly the camel-cased
    keys of that merged envelope, and the value under a camel-cased name
    is the merged value of the last key that transforms to it: a key
    whose camel-cased name no other key shares is stored under that name
    with its merged value. *)
Theorem generate_meta_merge (E : Env) (requestor_data kwargs : Dict) :
  (∀ k : string,
     dict_get k (generate_meta E requestor_data false kwargs) =
     match dict_get k (dict_of_items kwargs) with
     | Some v => Some v
     | None => dict_get k (meta_core E requestor_data)
     end)
  ∧ dict_get "issued_at" (meta_core E requestor_data)
    = Some (JStr (now_isoformat E))
  ∧ dict_get "version" (meta_core E requestor_data)
    = Some (JStr (version_tag E))
  ∧ dict_get "issuing_principal" (meta_core E requestor_data)
    = Some (JObj requestor_data)
  ∧ (∀ k' : string,
       k' ∈ keys (generate_meta E requestor_data true kwargs)
       ↔ ∃ k, k ∈ keys (generate_meta E requestor_data false kwargs)
              ∧ k' = to_camel_case E k)
  ∧ (∀ c : string,
       dict_get c (generate_meta E requestor_data true kwargs)
       = (fun kv => kv.2)
           <$> last (filter (fun kv => to_camel_case E kv.1 = c)
                       (generate_meta E requestor_data false kwargs)))
  ∧ (∀ (k : string) (v : json),
       dict_get k (generate_meta E requestor_data false kwargs) = Some v →
       (∀ k', k' ∈ keys (generate_meta E requestor_data false kwargs) →
              to_camel_case E k' = to_camel_case E k → k' = k) →
       dict_get (to_camel_case E k)
         (generate_meta E requestor_data true kwargs) = Some v).
Proof.
  split; [|split; [|split; [|split; [|split; [|split]]]]]; try reflexivity.
  - intros k. unfold generate_meta. apply dict_get_update.
  - intros k'. unfold generate_meta. split.
    + intros H. apply elem_of_keys_fold_set in H as [H|H]; [|exact H].
      change (keys []) with (@nil string) in H. by apply elem_of_nil in H.
    + intros H. apply elem_of_keys_fold_set. by right.
  - intros c. unfold generate_meta. rewrite dict_get_fold_set_last.
    by destruct (last _).
  - intros k v Hget Hinj. unfold generate_meta in *.
    apply dict_get_fold_set_inj; [|exact Hget|exact Hinj].
    apply NoDup_keys_update. apply (bool_decide_unpack _). vm_compute. exact I.
Qed.

(** Without an extension the three core entries are stored under their
    camel-cased names. *)
Example generate_meta_camel_case_core (requestor_data : Dict) :
  generate_meta Fixtures.env requestor_data true []
  = [("issuedAt", JStr (now_isoformat Fixtures.env));
     ("version", JStr (version_tag Fixtures.env));
     ("issuingPrincipal", JObj requestor_data)].
Proof. vm_compute. reflexivity. Qed.

(** With the camel-case option and an extension [channel_slug], the
    timestamp is stored under [issuedAt]. *)
Lemma generate_meta_merge_witness :
  dict_get (to_camel_case Fixtures.env "issued_at")
    (generate_meta Fixtures.env (generate_requestor Fixtures.env None) true
       [("channel_slug", JStr "default")])
  = Some (JStr (now_isoformat Fixtures.env)).
Proof.
  apply (proj2 (proj2 (proj2 (proj2 (proj2 (proj2
           (generate_meta_merge Fixtures.env
              (generate_requestor Fixtures.env None)
              [("channel_slug", JStr "default")]))))))
           "issued_at").
  - reflexivity.
  - intros k' Hk' Heq.
    change (k' ∈ ["issued_at"; "version"; "issuing_principal"; "channel_slug"])
      in Hk'.
    rewrite !elem_of_cons, elem_of_nil in Hk'.
    destruct Hk' as [->|[->|[->|[->|[]]]]];
      [reflexivity | vm_compute in Heq; discriminate ..].
Defined.

(** C3, as stated, fails: an extension key [version] overrides the build
    version tag. *)
Lemma generate_meta_extension_overrides_version :
  dict_get "version"
    (generate_meta Fixtures.env (generate_requestor Fixtures.env None) false
       [("version", JStr "0")])
  ≠ Some (JStr (version_tag Fixtures.env)).
Proof. vm_compute. discriminate. Qed.

(** ** Catalogue diff *)

Lemma same_views_refl (σ : Heap) : same_views σ σ.
Proof. intros c d H. eauto. Qed.

Lemma same_views_trans (σ1 σ2 σ3 : Heap) :
  same_views σ1 σ2 → same_views σ2 σ3 → same_views σ1 σ3.
Proof.
  intros H12 H23 c d H.
  destruct (H12 c d H) as (d2 & H2 & Hv2).
  destruct (H23 c d2 H2) as (d3 & H3 & Hv3).
  exists d3. split; [exact H3|]. intros k. by rewrite Hv3, Hv2.
Qed.

Lemma defaultdict_getitem_spec (σ : Heap) (c : nat) (key : string)
    (d : gmap string (gset string)) :
  σ !! c = Some d →
  ∃ σ', defaultdict_getitem σ c key = Some (view d key, σ') ∧ same_views σ σ'.
Proof.
  intros H. unfold defaultdict_getitem, view. rewrite H. simpl.
  destruct (d !! key) as [s|] eqn:Hk; simpl.
  - exists σ. split; [reflexivity | apply same_views_refl].
  - eexists. split; [reflexivity|].
    intros c' d0 H0. destruct (decide (c' = c)) as [->|Hne].
    + rewrite lookup_insert_eq. eexists. split; [reflexivity|].
      assert (d0 = d) as Heq by congruence. subst d0.
      intros k. unfold view. destruct (decide (k = key)) as [->|Hk'].
      * by rewrite lookup_insert_eq, Hk.
      * by rewrite lookup_insert_ne.
    + rewrite lookup_insert_ne by done. eauto.
Qed.

Lemma calculate_added_spec (σ : Heap) (prev curr : nat) (key : string)
    (p c : gmap string (gset string)) :
  σ !! prev = Some p → σ !! curr = Some c →
  ∃ σ', _calculate_added σ prev curr key
        = Some (elements (view c key ∖ view p key), σ')
        ∧ same_views σ σ'.
Proof.
  intros Hp Hc. unfold _calculate_added.
  destruct (defaultdict_getitem_spec σ curr key c Hc) as (σ1 & -> & H1).
  simpl. destruct (H1 prev p Hp) as (p1 & Hp1 & Hv).
  destruct (defaultdict_getitem_spec σ1 prev key p1 Hp1) as (σ2 & -> & H2).
  simpl. exists σ2. rewrite Hv. split; [reflexivity|].
  by eapply same_views_trans.
Qed.

(** C1: the removed-list is the added-list with the snapshots swapped;
    a snapshot diffed against itself adds nothing; and for
    [{products: {A, B}}] against [{products: {B, C}}] the added products
    are [C] and the removed ones [A]. *)
Theorem calculate_removed_is_added_swapped :
  (∀ (σ : Heap) (prev curr : nat) (key : string),
     _calculate_removed σ prev curr key = _calculate_added σ curr prev key)
  ∧ (∀ (σ : Heap) (c : nat) (key : string),
       is_Some (σ !! c) → fst <$> _calculate_added σ c c key = Some [])
  ∧ fst <$> _calculate_added Fixtures.heap 0 1 "products" = Some ["C"]
  ∧ fst <$> _calculate_removed Fixtures.heap 0 1 "products" = Some ["A"].
Proof.
  split; [reflexivity|]. split.
  - intros σ c key [d H].
    destruct (calculate_added_spec σ c c key d d H H) as (σ' & -> & _).
    simpl.
    assert (view d key ∖ view d key = (∅ : gset string)) as -> by set_solver.
    by rewrite elements_empty.
  - split; vm_compute; reflexivity.
Qed.

Lemma calculate_removed_is_added_swapped_witness :
  fst <$> _calculate_added Fixtures.heap 1 1 "variants" = Some [].
Proof.
  apply (proj1 (proj2 calculate_removed_is_added_swapped)).
  vm_compute. eexists. reflexivity.
Defined.

Lemma calculate_added_step (σ : Heap) (prev curr : nat) (key : string)
    (p c : gmap string (gset string)) :
  σ !! prev = Some p → σ !! curr = Some c →
  ∃ σ' p' c',
    _calculate_added σ prev curr key
    = Some (elements (view c key ∖ view p key), σ')
    ∧ σ' !! prev = Some p' ∧ σ' !! curr = Some c'
    ∧ (∀ k, view p' k = view p k) ∧ (∀ k, view c' k = view c k).
Proof.
  intros Hp Hc.
  destruct (calculate_added_spec σ prev curr key p c Hp Hc) as (σ' & Heq & Hv).
  destruct (Hv prev p Hp) as (p' & Hp' & Vp).
  destruct (Hv curr c Hc) as (c' & Hc' & Vc).
  exists σ', p', c'. auto.
Qed.

(** With both catalogues on the heap the sale payload is one record whose
    eight lists are the set differences of what the two catalogues read. *)
Lemma generate_sale_payload_supplied (E : Env) (σ : Heap) (sale : Sale)
    (prev curr : nat) (requestor : option Requestor)
    (p c : gmap string (gset string)) :
  σ !! prev = Some p → σ !! curr = Some c →
  ∃ d σ',
    generate_sale_payload E σ sale (Some prev) (Some curr) requestor
    = Some (JList [JObj d], σ')
    ∧ dict_get "categories_added" d = Some (added_of p c "categories")
    ∧ dict_get "categories_removed" d = Some (added_of c p "categories")
    ∧ dict_get "collections_added" d = Some (added_of p c "collections")
    ∧ dict_get "collections_removed" d = Some (added_of c p "collections")
    ∧ dict_get "products_added" d = Some (added_of p c "products")
    ∧ dict_get "products_removed" d = Some (added_of c p "products")
    ∧ dict_get "variants_added" d = Some (added_of p c "variants")
    ∧ dict_get "variants_removed" d = Some (added_of c p "variants").
Proof.
  intros Hp Hc. unfold generate_sale_payload, _calculate_removed, added_of.
  destruct (calculate_added_step σ prev curr "categories" p c Hp Hc)
    as (σ1 & p1 & c1 & -> & Hp1 & Hc1 & Vp1 & Vc1); simpl.
  destruct (calculate_added_step σ1 curr prev "categories" c1 p1 Hc1 Hp1)
    as (σ2 & c2 & p2 & -> & Hc2 & Hp2 & Vc2 & Vp2); simpl.
  destruct (calculate_added_step σ2 prev curr "collections" p2 c2 Hp2 Hc2)
    as (σ3 & p3 & c3 & -> & Hp3 & Hc3 & Vp3 & Vc3); simpl.
  destruct (calculate_added_step σ3 curr prev "collections" c3 p3 Hc3 Hp3)
    as (σ4 & c4 & p4 & -> & Hc4 & Hp4 & Vc4 & Vp4); simpl.
  destruct (calculate_added_step σ4 prev curr "products" p4 c4 Hp4 Hc4)
    as (σ5 & p5 & c5 & -> & Hp5 & Hc5 & Vp5 & Vc5); simpl.
  destruct (calculate_added_step σ5 curr prev "products" c5 p5 Hc5 Hp5)
    as (σ6 & c6 & p6 & -> & Hc6 & Hp6 & Vc6 & Vp6); simpl.
  destruct (calculate_added_step σ6 prev curr "variants" p6 c6 Hp6 Hc6)
    as (σ7 & p7 & c7 & -> & Hp7 & Hc7 & Vp7 & Vc7); simpl.
  destruct (calculate_added_step σ7 curr prev "variants" c7 p7 Hc7 Hp7)
    as (σ8 & c8 & p8 & -> & Hc8 & Hp8 & Vc8 & Vp8); simpl.
  eexists _, σ8. split; [reflexivity|].
  rewrite ?Vp7, ?Vc7, ?Vp6, ?Vc6, ?Vp5, ?Vc5, ?Vp4, ?Vc4, ?Vp3, ?Vc3,
    ?Vp2, ?Vc2, ?Vp1, ?Vc1.
  repeat split; reflexivity.
Qed.

Lemma view_empty (key : string) : view ∅ key = ∅.
Proof. unfold view. by rewrite lookup_empty. Qed.

(** C7: with both catalogues absent every one of the eight added/removed
    lists of the sale payload is empty; and with catalogues supplied, a
    category key missing from one of them reads as the empty set, so the
    diff and the whole payload are produced whatever keys are present. *)
Theorem generate_sale_payload_absent_catalogues :
  (∀ (E : Env) (σ : Heap) (sale : Sale) (requestor : option Requestor),
     ∃ d σ',
       generate_sale_payload E σ sale None None requestor
       = Some (JList [JObj d], σ')
       ∧ Forall (fun k => dict_get k d = Some (JList []))
           ["categories_added"; "categories_removed"; "collections_added";
            "collections_removed"; "products_added"; "products_removed";
            "variants_added"; "variants_removed"])
  ∧ (∀ (σ : Heap) (prev curr : nat) (key : string)
       (p c : gmap string (gset string)),
       σ !! prev = Some p → σ !! curr = Some c →
       (p !! key = None →
        fst <$> _calculate_added σ prev curr key = Some (elements (view c key)))
       ∧ (c !! key = None →
          fst <$> _calculate_added σ prev curr key = Some []))
  ∧ (∀ (E : Env) (σ : Heap) (sale : Sale) (prev curr : nat)
       (requestor : option Requestor),
       is_Some (σ !! prev) → is_Some (σ !! curr) →
       is_Some (generate_sale_payload E σ sale (Some prev) (Some curr)
                  requestor)).
Proof.
  split; [|split].
  - intros E σ sale requestor.
    set (l1 := fresh (dom σ)). set (σa := <[l1 := ∅]> σ).
    set (l2 := fresh (dom σa)). set (σb := <[l2 := ∅]> σa).
    assert (l2 ≠ l1) as Hne.
    { intros Heq. apply (is_fresh (dom σa)). fold l2. rewrite Heq.
      unfold σa. rewrite dom_insert_L. set_solver. }
    assert (σb !! l1 = Some ∅) as H1.
    { unfold σb. rewrite lookup_insert_ne by done.
      unfold σa. by rewrite lookup_insert_eq. }
    assert (σb !! l2 = Some ∅) as H2.
    { unfold σb. by rewrite lookup_insert_eq. }
    destruct (generate_sale_payload_supplied E σb sale l1 l2 requestor ∅ ∅ H1 H2)
      as (d & σ' & Heq & A1 & A2 & A3 & A4 & A5 & A6 & A7 & A8).
    exists d, σ'. split; [exact Heq|].
    unfold added_of in *. rewrite !view_empty in *.
    assert (∅ ∖ ∅ = (∅ : gset string)) as Hd by set_solver.
    rewrite Hd, elements_empty in *.
    repeat constructor; assumption.
  - intros σ prev curr key p c Hp Hc.
    destruct (calculate_added_spec σ prev curr key p c Hp Hc) as (σ' & -> & _).
    simpl. split; intros Hk.
    + assert (view p key = ∅) as -> by (unfold view; by rewrite Hk).
      assert (view c key ∖ ∅ = view c key) as -> by set_solver.
      reflexivity.
    + assert (view c key = ∅) as -> by (unfold view; by rewrite Hk).
      assert (∅ ∖ view p key = (∅ : gset string)) as -> by set_solver.
      by rewrite elements_empty.
  - intros E σ sale prev curr requestor [p Hp] [c Hc].
    destruct (generate_sale_payload_supplied E σ sale prev curr requestor p c
                Hp Hc) as (d & σ' & -> & _).
    by eexists.
Qed.

Lemma generate_sale_payload_absent_catalogues_witness :
  fst <$> _calculate_added Fixtures.heap 0 1 "variants" = Some []
  ∧ is_Some (generate_sale_payload Fixtures.env Fixtures.heap Fixtures.sale
               (Some 0%nat) (Some 1%nat) None).
Proof.
  split.
  - apply (proj2 (proj1 (proj2 generate_sale_payload_absent_catalogues)
                    Fixtures.heap 0%nat 1%nat "variants"
                    {[ "products" := {[ "A"; "B" ]} ]}
                    {[ "products" := {[ "B"; "C" ]} ]}
                    eq_refl eq_refl)).
    reflexivity.
  - apply (proj2 (proj2 generate_sale_payload_absent_catalogues)).
    + eexists. reflexivity.
    + eexists. reflexivity.
Defined.

(** ** Payment payload *)

(** C9: the payment payload carries [meta] and [payment_method] exactly
    when the gateway id parses as a payment-app id; otherwise it is the
    dataclass's fields with the amount quantized. *)
Theorem generate_payment_payload_meta_iff_app
    (E : Env) (payment_data : PaymentData) (requestor : option Requestor) :
  "meta" ∉ keys (other_fields payment_data) →
  "payment_method" ∉ keys (other_fields payment_data) →
  let data := generate_payment_payload E payment_data requestor in
  ("meta" ∈ keys data
   ↔ is_Some (from_payment_app_id E (gateway payment_data)))
  ∧ ("payment_method" ∈ keys data
     ↔ is_Some (from_payment_app_id E (gateway payment_data)))
  ∧ (∀ app, from_payment_app_id E (gateway payment_data) = Some app →
       dict_get "payment_method" data = Some (JStr (app_name app))
       ∧ dict_get "meta" data = Some (stamp_meta E requestor))
  ∧ (from_payment_app_id E (gateway payment_data) = None →
     data =
     dict_set "amount"
       (JDec (quantize_price E (amount payment_data) (currency payment_data)))
       (asdict payment_data))
  ∧ dict_get "amount" data =
    Some (JDec (quantize_price E (amount payment_data) (currency payment_data))).
Proof.
  intros Hmeta Hpm data. subst data. unfold generate_payment_payload.
  assert (∀ k, k ≠ "gateway" → k ≠ "amount" → k ≠ "currency" →
               k ∉ keys (other_fields payment_data) →
               k ∉ keys (dict_set "amount"
                           (JDec (quantize_price E (amount payment_data)
                                    (currency payment_data)))
                           (asdict payment_data))) as Hfresh.
  { intros k H1 H2 H3 H4 Hin. apply elem_of_keys_set in Hin as [->|Hin]; [done|].
    unfold asdict, keys in Hin. rewrite fmap_app in Hin. simpl in Hin.
    rewrite !elem_of_cons in Hin. tauto. }
  destruct (from_payment_app_id E (gateway payment_data)) as [app|] eqn:Happ.
  - split; [|split; [|split; [|split]]].
    + split; [intros _; by eexists|].
      intros _. apply elem_of_keys_set. by left.
    + split; [intros _; by eexists|].
      intros _. apply elem_of_keys_set. right. apply elem_of_keys_set. by left.
    + intros app0 Heq. assert (app0 = app) as -> by congruence.
      rewrite !dict_get_set. split; reflexivity.
    + discriminate.
    + rewrite !dict_get_set. reflexivity.
  - split; [|split; [|split; [|split]]].
    + split; [|intros [? ?]; discriminate].
      intros Hin. exfalso. revert Hin. by apply Hfresh.
    + split; [|intros [? ?]; discriminate].
      intros Hin. exfalso. revert Hin. by apply Hfresh.
    + discriminate.
    + reflexivity.
    + rewrite dict_get_set. reflexivity.
Qed.

Lemma generate_payment_payload_meta_iff_app_witness :
  "meta" ∈ keys (generate_payment_payload Fixtures.env Fixtures.card_payment None)
  ↔ is_Some (from_payment_app_id Fixtures.env (gateway Fixtures.card_payment)).
Proof.
  apply (generate_payment_payload_meta_iff_app Fixtures.env
           Fixtures.card_payment None).
  - vm_compute. intros H. repeat (apply elem_of_cons in H as [H|H]; [discriminate|]).
    by apply elem_of_nil in H.
  - vm_compute. intros H. repeat (apply elem_of_cons in H as [H|H]; [discriminate|]).
    by apply elem_of_nil in H.
Defined.

(** ** Fulfilment and order lines *)

Lemma Forall2_map_same {A B : Type} (P : A → B → Prop) (f : A → B) (l : list A) :
  (∀ x, P x (f x)) → Forall2 P l (map f l).
Proof. intros H. induction l; simpl; constructor; auto. Qed.

Lemma Forall2_map_map {A B C : Type} (P : B → C → Prop) (f : A → B) (g : A → C)
    (l : list A) :
  (∀ x, P (f x) (g x)) → Forall2 P (map f l) (map g l).
Proof. intros H. induction l; simpl; constructor; auto. Qed.

(** C10: each serialized fulfilment line has as its net (gross) total the
    quantized undiscounted net (gross) unit price of its order line times
    the fulfilment line's quantity, whereas an order line's totals are the
    pricing engine's discounted line totals. *)
Theorem fulfillment_line_totals_undiscounted
    (E : Env) (fulfillment : Fulfillment) (order : Order) (lines : list OrderLine) :
  Forall2
    (fun fl d =>
       dict_get "total_price_net_amount" d =
       Some (JDec (dec_mul_int
                     (quantize_price E
                        (net (undiscounted_unit_price (order_line fl)))
                        (line_currency (order_line fl)))
                     (quantity fl)))
       ∧ dict_get "total_price_gross_amount" d =
         Some (JDec (dec_mul_int
                       (quantize_price E
                          (gross (undiscounted_unit_price (order_line fl)))
                          (line_currency (order_line fl)))
                       (quantity fl))))
    (fulfillment_lines fulfillment)
    (generate_fulfillment_lines_payload E fulfillment)
  ∧ Forall2
      (fun l d =>
         let priced :=
           price_with_discounts
             (order_line_total E order (quantize_line E l)
                (map (quantize_line E) lines)) in
         dict_get "total_price_net_amount" d = Some (JDec (net priced))
         ∧ dict_get "total_price_gross_amount" d = Some (JDec (gross priced)))
      lines
      (_generate_order_lines_payload_with_taxes E order lines).
Proof.
  split.
  - unfold generate_fulfillment_lines_payload, serialize.
    apply Forall2_map_same. intros fl. split; vm_compute; reflexivity.
  - unfold _generate_order_lines_payload_with_taxes, serialize.
    rewrite map_map. apply Forall2_map_same. intros l.
    split; vm_compute; reflexivity.
Qed.

(** The end-to-end figures of the specification: quantity 2 at an
    undiscounted unit price of 10.00 net, 12.00 gross. *)
Example fulfillment_line_totals_example :
  (fun d => (dict_get "total_price_net_amount" d,
             dict_get "total_price_gross_amount" d))
    <$> generate_fulfillment_lines_payload Fixtures.env Fixtures.fulfillment
  = [(Some (JDec (Fixtures.dec 2000 (-2))), Some (JDec (Fixtures.dec 2400 (-2))))].
Proof. vm_compute. reflexivity. Qed.

(** ** Parity of the two price regimes *)

(** C2: for one order the with-taxes and the without-taxes payloads are
    both produced and have the same non-price field names, in the same
    order, in the order record and in each order line. They differ in
    the price fields only: the order record carries the names of the
    price data of its regime (net/gross pairs and the shipping tax rate,
    or base amounts), and each line the net/gross pairs and the tax rate,
    or the four base amounts. *)
Theorem order_payload_non_price_fields_parity
    (E : Env) (order : Order) (requestor : option Requestor) (with_meta : bool) :
  ∃ dw dwo : Dict,
    generate_order_payload E order requestor with_meta = Ok [dw]
    ∧ generate_order_payload_without_taxes E order requestor with_meta
      = Ok [dwo]
    ∧ non_price_fields dw = non_price_fields dwo
    ∧ price_fields dw
      = keys (_generate_order_prices_data_with_taxes E order (order_lines order))
    ∧ price_fields dwo
      = keys (_generate_order_prices_data_without_taxes E order
                (include_taxes_in_prices E))
    ∧ dict_get "lines" dw =
      Some (records (_generate_order_lines_payload_with_taxes E order
                       (order_lines order)))
    ∧ dict_get "lines" dwo =
      Some (records (_generate_order_lines_payload_without_taxes E order
                       (order_lines order) (include_taxes_in_prices E)))
    ∧ Forall2
        (fun lw lwo =>
           non_price_fields lw = non_price_fields lwo
           ∧ price_fields lw
             = ["unit_price_net_amount"; "unit_price_gross_amount";
                "total_price_net_amount"; "total_price_gross_amount";
                "undiscounted_unit_price_net_amount";
                "undiscounted_unit_price_gross_amount";
                "undiscounted_total_price_net_amount";
                "undiscounted_total_price_gross_amount"; "tax_rate"]
           ∧ price_fields lwo
             = ["unit_price_base_amount"; "total_price_base_amount";
                "undiscounted_unit_price_base_amount";
                "undiscounted_total_price_base_amount"])
        (_generate_order_lines_payload_with_taxes E order (order_lines order))
        (_generate_order_lines_payload_without_taxes E order
           (order_lines order) (include_taxes_in_prices E)).
Proof.
  unfold generate_order_payload, generate_order_payload_without_taxes,
    _generate_order_payload.
  assert (Forall2
            (fun lw lwo =>
               non_price_fields lw = non_price_fields lwo
               ∧ price_fields lw
                 = ["unit_price_net_amount"; "unit_price_gross_amount";
                    "total_price_net_amount"; "total_price_gross_amount";
                    "undiscounted_unit_price_net_amount";
                    "undiscounted_unit_price_gross_amount";
                    "undiscounted_total_price_net_amount";
                    "undiscounted_total_price_gross_amount"; "tax_rate"]
               ∧ price_fields lwo
                 = ["unit_price_base_amount"; "total_price_base_amount";
                    "undiscounted_unit_price_base_amount";
                    "undiscounted_total_price_base_amount"])
            (_generate_order_lines_payload_with_taxes E order (order_lines order))
            (_generate_order_lines_payload_without_taxes E order
               (order_lines order) (include_taxes_in_prices E))) as Hlines.
  { unfold _generate_order_lines_payload_with_taxes,
      _generate_order_lines_payload_without_taxes, serialize.
    apply Forall2_map_map. intros l.
    split; [|split]; vm_compute; reflexivity. }
  destruct (order_collection_point order) as [w|]; destruct with_meta; simpl;
    (eexists _, _; split; [reflexivity|]; split; [reflexivity|];
     split; [vm_compute; reflexivity|];
     split; [vm_compute; reflexivity|];
     split; [vm_compute; reflexivity|];
     split; [vm_compute; reflexivity|];
     split; [vm_compute; reflexivity | exact Hlines]).
Qed.

(** ** Absent relations *)

Ltac absent_relation :=
  eexists; split; [reflexivity|];
  repeat split; intros; try discriminate; vm_compute; reflexivity.

Lemma order_payload_absent_relations
    (E : Env) (order : Order) (requestor : option Requestor) (with_meta : bool) :
  (∃ d, generate_order_payload E order requestor with_meta = Ok [d]
        ∧ (order_shipping_method order = None →
           dict_get "shipping_method" d = Some JNull)
        ∧ (order_collection_point order = None →
           dict_get "collection_point" d = Some JNull))
  ∧ (∃ d, generate_order_payload_without_taxes E order requestor with_meta
          = Ok [d]
          ∧ (order_shipping_method order = None →
             dict_get "shipping_method" d = Some JNull)
          ∧ (order_collection_point order = None →
             dict_get "collection_point" d = Some JNull)).
Proof.
  unfold generate_order_payload, generate_order_payload_without_taxes,
    _generate_order_payload.
  destruct order as [? ? ? ? ? ? ? ? sm ? ? cp ? ? ? ? ? ? ?].
  destruct sm, cp, with_meta; simpl; split; absent_relation.
Qed.

Lemma checkout_payload_absent_relations
    (E : Env) (checkout : Checkout) (requestor : option Requestor) :
  ∃ d, generate_checkout_payload E checkout requestor = Ok [d]
       ∧ (checkout_shipping_method checkout = None →
          dict_get "shipping_method" d = Some JNull)
       ∧ (checkout_collection_point checkout = None →
          dict_get "collection_point" d = Some JNull)
       ∧ dict_get "meta" d = Some (stamp_meta E requestor).
Proof.
  unfold generate_checkout_payload.
  destruct checkout as [? ? ? ? ? ? ? sa ? sm cp].
  destruct sm, cp; simpl; absent_relation.
Qed.

(** C6: an absent optional relation resolves to null and the composer
    still returns its document: the shipping method and the collection
    point of an order (under both price regimes) and of a checkout, the
    variant-derived fields of an order line and of a fulfilment line, and
    the id and type of an absent requestor. *)
Theorem absent_relations_resolve_to_null (E : Env) :
  (∀ (order : Order) (requestor : option Requestor) (with_meta : bool),
     (∃ d, generate_order_payload E order requestor with_meta = Ok [d]
           ∧ (order_shipping_method order = None →
              dict_get "shipping_method" d = Some JNull)
           ∧ (order_collection_point order = None →
              dict_get "collection_point" d = Some JNull))
     ∧ (∃ d, generate_order_payload_without_taxes E order requestor with_meta
             = Ok [d]
             ∧ (order_shipping_method order = None →
                dict_get "shipping_method" d = Some JNull)
             ∧ (order_collection_point order = None →
                dict_get "collection_point" d = Some JNull)))
  ∧ (∀ (checkout : Checkout) (requestor : option Requestor),
       ∃ d, generate_checkout_payload E checkout requestor = Ok [d]
            ∧ (checkout_shipping_method checkout = None →
               dict_get "shipping_method" d = Some JNull)
            ∧ (checkout_collection_point checkout = None →
               dict_get "collection_point" d = Some JNull)
            ∧ dict_get "meta" d = Some (stamp_meta E requestor))
  ∧ (∀ (order : Order) (lines : list OrderLine) (use_gross : bool),
       let absent l d :=
         variant l = None →
         dict_get "charge_taxes" d = Some JNull
         ∧ dict_get "product_metadata" d = Some JNull
         ∧ dict_get "product_type_metadata" d = Some JNull in
       Forall2 absent lines (_generate_order_lines_payload_with_taxes E order lines)
       ∧ Forall2 absent lines
           (_generate_order_lines_payload_without_taxes E order lines use_gross))
  ∧ (∀ fulfillment : Fulfillment,
       Forall2
         (fun fl d =>
            variant (order_line fl) = None →
            dict_get "weight" d = Some JNull
            ∧ dict_get "product_type" d = Some JNull)
         (fulfillment_lines fulfillment)
         (generate_fulfillment_lines_payload E fulfillment))
  ∧ stamp_meta E None =
    JObj [("issued_at", JStr (now_isoformat E));
          ("version", JStr (version_tag E));
          ("issuing_principal", JObj [("id", JNull); ("type", JNull)])].
Proof.
  split; [apply order_payload_absent_relations|].
  split; [apply checkout_payload_absent_relations|].
  split; [|split; [|reflexivity]].
  - intros order lines use_gross absent. subst absent.
    unfold _generate_order_lines_payload_with_taxes,
      _generate_order_lines_payload_without_taxes, serialize.
    rewrite !map_map.
    split; apply Forall2_map_same; intros [? ? v ? ? ? ? ? ? ? ? ? ? ? ?] Hv;
      simpl in Hv; subst v; repeat split; vm_compute; reflexivity.
  - intros fulfillment.
    unfold generate_fulfillment_lines_payload, serialize.
    apply Forall2_map_same. intros [? ? ? [? ? v ? ? ? ? ? ? ? ? ? ? ? ?] ?] Hv.
    simpl in Hv. subst v. split; vm_compute; reflexivity.
Qed.

Lemma absent_relations_resolve_to_null_witness :
  ∃ d, generate_order_payload Fixtures.env Fixtures.order None true = Ok [d]
       ∧ dict_get "shipping_method" d = Some JNull
       ∧ dict_get "collection_point" d = Some JNull.
Proof.
  destruct (proj1 (proj1 (absent_relations_resolve_to_null Fixtures.env)
                     Fixtures.order None true))
    as (d & Hd & Hs & Hc).
  exists d. split; [exact Hd|]. split; [apply Hs | apply Hc]; reflexivity.
Defined.

(** ** Sample payloads *)

Lemma get_sample_object_is_Some {A : Type} (rand : nat) (qs : list A) :
  qs ≠ [] → is_Some (_get_sample_object rand qs).
Proof.
  intros Hne. unfold _get_sample_object. apply lookup_lt_is_Some.
  apply Nat.mod_upper_bound. destruct qs; [done | simpl; lia].
Qed.

Section SampleProperties.
Variable E : Env.
Variable generate_fake_user : User.
Variable generate_customer_payload : User → Result json.
Variable generate_product_payload : Product → Result json.
Variable generate_fulfillment_payload : Fulfillment → Order → Result json.

Let run :=
  generate_sample_payload E generate_fake_user generate_customer_payload
    generate_product_payload generate_fulfillment_payload.

(** An event name the generator does not know yields no document. *)
Lemma generate_sample_payload_unknown_event
    (db : Database) (rand : nat) (event_name : string) :
  event_name ∉
    ["customer_created"; "customer_updated"; "product_created";
     "checkout_updated"; "checkout_created"; "page_created"; "page_deleted";
     "page_updated"; "fulfillment_created"; "order_created";
     "order_fully_paid"; "order_fulfilled"; "order_cancelled";
     "order_updated"] →
  run db rand event_name = Ok None.
Proof.
  intros Hn. rewrite !not_elem_of_cons in Hn.
  destruct Hn as (?&?&?&?&?&?&?&?&?&?&?&?&?&?&_).
  unfold run, generate_sample_payload, sample_payload_binding,
    _generate_sample_order_payload.
  unfold WebhookEventAsyncType.CUSTOMER_CREATED,
    WebhookEventAsyncType.CUSTOMER_UPDATED,
    WebhookEventAsyncType.PRODUCT_CREATED,
    WebhookEventAsyncType.CHECKOUT_UPDATED,
    WebhookEventAsyncType.CHECKOUT_CREATED,
    WebhookEventAsyncType.PAGE_CREATED, WebhookEventAsyncType.PAGE_DELETED,
    WebhookEventAsyncType.PAGE_UPDATED,
    WebhookEventAsyncType.FULFILLMENT_CREATED,
    WebhookEventAsyncType.ORDER_CREATED,
    WebhookEventAsyncType.ORDER_FULLY_PAID,
    WebhookEventAsyncType.ORDER_FULFILLED,
    WebhookEventAsyncType.ORDER_CANCELLED,
    WebhookEventAsyncType.ORDER_UPDATED.
  repeat case_decide;
    repeat match goal with
           | H : _ ∈ _ |- _ => rewrite ?elem_of_cons, ?elem_of_nil in H
           end;
    tauto.
Qed.

(** C5, where the code departs from it: with no checkout (no page) in
    the database a checkout (page) event reads the never-assigned local
    [payload] and raises, and a fulfilment event with no fulfilment
    raises on [fulfillment.order]; the product branch and the order
    branch, which guard the empty case, return no document. *)
Theorem generate_sample_payload_no_rows
    (orders : list Order) (products : list Product)
    (checkouts : list Checkout) (pages : list Page)
    (fulfillments : list (Fulfillment * Order)) (rand : nat) :
  let no_checkouts := mkDatabase orders products [] pages fulfillments in
  let no_pages := mkDatabase orders products checkouts [] fulfillments in
  let no_fulfillments := mkDatabase orders products checkouts pages [] in
  let no_products := mkDatabase orders [] checkouts pages fulfillments in
  let no_orders := mkDatabase [] products checkouts pages fulfillments in
  run no_checkouts rand "checkout_created" = Raise (UnboundLocalError "payload")
  ∧ run no_checkouts rand "checkout_updated"
    = Raise (UnboundLocalError "payload")
  ∧ run no_pages rand "page_created" = Raise (UnboundLocalError "payload")
  ∧ run no_pages rand "page_updated" = Raise (UnboundLocalError "payload")
  ∧ run no_pages rand "page_deleted" = Raise (UnboundLocalError "payload")
  ∧ run no_fulfillments rand "fulfillment_created"
    = Raise (AttributeError "order")
  ∧ run no_products rand "product_created" = Ok None
  ∧ Forall (fun ev => run no_orders rand ev = Ok None)
      ["order_created"; "order_fully_paid"; "order_fulfilled";
       "order_cancelled"; "order_updated"].
Proof.
  repeat split; try reflexivity.
  repeat constructor.
Qed.

(** The checkout branch of the generator. *)
Lemma generate_sample_payload_checkout_branch
    (db : Database) (rand : nat) (event_name : string) :
  event_name ∈ ["checkout_updated"; "checkout_created"] →
  run db rand event_name =
  match _get_sample_object rand (db_checkouts db) with
  | Some checkout =>
      checkout_payload ←
        generate_checkout_payload E (anonymize_checkout E checkout) None;
      payload ← _remove_token_from_checkout checkout_payload;
      Ok (Some (records payload))
  | None => Raise (UnboundLocalError "payload")
  end.
Proof.
  intros Hev. rewrite !elem_of_cons, elem_of_nil in Hev.
  destruct Hev as [->|[->|[]]];
    unfold run, generate_sample_payload, sample_payload_binding;
    simpl; (destruct (_get_sample_object rand (db_checkouts db));
            simpl; [|reflexivity]);
    (destruct (generate_checkout_payload _ _ _) as [cp|];
     simpl; [|reflexivity]);
    destruct (_remove_token_from_checkout cp); reflexivity.
Qed.

(** C8: a sample payload for a checkout event, when a checkout exists,
    is a document whose first record has the token of the UUID with
    integer value 1, whatever checkout was drawn; two generations
    therefore agree on the token. *)
Theorem generate_sample_payload_checkout_token
    (db : Database) (rand : nat) (event_name : string) :
  event_name ∈ ["checkout_updated"; "checkout_created"] →
  db_checkouts db ≠ [] →
  ∃ d rest,
    run db rand event_name = Ok (Some (JList (JObj d :: rest)))
    ∧ dict_get "token" d = Some (JStr (uuid_str 1))
    ∧ uuid_str 1 = "00000000-0000-0000-0000-000000000001".
Proof.
  intros Hev Hdb.
  rewrite (generate_sample_payload_checkout_branch db rand event_name Hev).
  destruct (get_sample_object_is_Some rand (db_checkouts db) Hdb) as [c Hc].
  destruct (checkout_payload_absent_relations E (anonymize_checkout E c) None)
    as (d0 & Hd0 & _).
  exists (dict_set "token" (JStr (uuid_str 1)) d0), [].
  split; [|split; [|reflexivity]].
  - rewrite Hc, Hd0. reflexivity.
  - rewrite dict_get_set. reflexivity.
Qed.
End SampleProperties.

Lemma generate_sample_payload_checkout_token_witness :
  ∃ d rest,
    generate_sample_payload Fixtures.env Fixtures.fake_user Fixtures.no_payload
      Fixtures.no_payload Fixtures.no_payload2 Fixtures.checkout_db 7
      "checkout_created"
    = Ok (Some (JList (JObj d :: rest)))
    ∧ dict_get "token" d = Some (JStr "00000000-0000-0000-0000-000000000001").
Proof.
  destruct (generate_sample_payload_checkout_token Fixtures.env
              Fixtures.fake_user Fixtures.no_payload Fixtures.no_payload
              Fixtures.no_payload2 Fixtures.checkout_db 7 "checkout_created")
    as (d & rest & H1 & H2 & H3).
  - apply elem_of_cons. right. apply elem_of_cons. by left.
  - discriminate.
  - exists d, rest. split; [exact H1|]. rewrite H2. by rewrite H3.
Defined.

(** ** Translation payload *)

(** X1: whatever the translation context holds, the processed context has
    exactly the five id fields, in their fixed order; each is the encoded
    id of its own type when the context has a non-zero id under that name
    and null otherwise, and a name reads as absent exactly when the
    context has no id under it other than 0. *)
Theorem process_translation_context_shape
    (E : Env) (context : gmap string (option Z)) :
  keys (process_translation_context E context)
  = ["product_id"; "product_variant_id"; "attribute_id"; "page_id";
     "page_type_id"]
  ∧ Forall
      (fun kt =>
         dict_get kt.1 (process_translation_context E context)
         = Some match context_id context kt.1 with
                | Some object_id => JStr (to_global_id E kt.2 (Some object_id))
                | None => JNull
                end)
      additional_id_fields
  ∧ (∀ key : string,
       context_id context key = None
       ↔ ∀ object_id, context !! key = Some (Some object_id) → object_id = 0).
Proof.
  split; [|split].
  - unfold process_translation_context. simpl.
    destruct (context_id context "product_id"),
      (context_id context "product_variant_id"),
      (context_id context "attribute_id"), (context_id context "page_id"),
      (context_id context "page_type_id"); reflexivity.
  - unfold process_translation_context, additional_id_fields.
    rewrite !Forall_cons, Forall_nil. simpl.
    destruct (context_id context "product_id"),
      (context_id context "product_variant_id"),
      (context_id context "attribute_id"), (context_id context "page_id"),
      (context_id context "page_type_id"); repeat split; reflexivity.
  - intros key. unfold context_id.
    destruct (context !! key) as [[i|]|] eqn:Hk.
    + destruct (decide (i = 0)) as [->|Hne]; split; try done.
      * intros _ j Hj. congruence.
      * intros H. exfalso. apply Hne. by apply H.
    + split; [intros _ j Hj; discriminate | done].
    + split; [intros _ j Hj; discriminate | done].
Qed.

(** X2: the translation payload always has [id], [language_code], [type],
    [keys] and [meta] with their own values; the five context fields
    follow exactly for an attribute-value translation (even one whose
    context is empty) and never replace a core entry; and there is one
    key/value record per translated key, in order. *)
Theorem generate_translation_payload_shape
    (E : Env) (translation : Translation) (requestor : option Requestor) :
  let d := generate_translation_payload E translation requestor in
  keys d
  = (["id"; "language_code"; "type"; "keys"; "meta"]
     ++ match attribute_value_context translation with
        | Some _ => ["product_id"; "product_variant_id"; "attribute_id";
                     "page_id"; "page_type_id"]
        | None => []
        end)%list
  ∧ dict_get "id" d
    = Some (JStr (to_global_id E (translated_object_type translation)
                    (Some (translated_object_id translation))))
  ∧ dict_get "language_code" d
    = Some (JStr (translation_language_code translation))
  ∧ dict_get "type" d = Some (JStr (translated_object_type translation))
  ∧ dict_get "meta" d = Some (stamp_meta E requestor)
  ∧ dict_get "keys" d
    = Some (JList (map (fun kv => JObj [("key", JStr kv.1); ("value", kv.2)])
                       (translated_keys translation))).
Proof.
  unfold generate_translation_payload.
  destruct (attribute_value_context translation) as [ctx|];
    [|repeat split; reflexivity].
  unfold process_translation_context. simpl.
  destruct (context_id ctx "product_id"),
    (context_id ctx "product_variant_id"), (context_id ctx "attribute_id"),
    (context_id ctx "page_id"), (context_id ctx "page_type_id");
    repeat split; reflexivity.
Qed.

(** ** Order payload *)

Ltac order_cases order with_meta :=
  unfold generate_order_payload, generate_order_payload_without_taxes,
    _generate_order_payload;
  destruct (order_collection_point order); destruct with_meta; simpl.

Lemma order_payload_meta_lookup
    (E : Env) (order : Order) (requestor : option Requestor) (with_meta : bool) :
  ∃ dw dwo : Dict,
    generate_order_payload E order requestor with_meta = Ok [dw]
    ∧ generate_order_payload_without_taxes E order requestor with_meta
      = Ok [dwo]
    ∧ dict_get "meta" dw
      = (if with_meta then Some (stamp_meta E requestor) else None)
    ∧ dict_get "meta" dwo
      = (if with_meta then Some (stamp_meta E requestor) else None).
Proof.
  order_cases order with_meta;
    (eexists _, _; split; [reflexivity|]; split; [reflexivity|];
     split; vm_compute; reflexivity).
Qed.

(** X3: under both price regimes the order record has a [meta] entry
    exactly when [with_meta] is set, and then it is the envelope of the
    given requestor. *)
Theorem order_payload_meta_iff_with_meta
    (E : Env) (order : Order) (requestor : option Requestor) (with_meta : bool) :
  ∃ dw dwo : Dict,
    generate_order_payload E order requestor with_meta = Ok [dw]
    ∧ generate_order_payload_without_taxes E order requestor with_meta
      = Ok [dwo]
    ∧ dict_get "meta" dw
      = (if with_meta then Some (stamp_meta E requestor) else None)
    ∧ dict_get "meta" dwo
      = (if with_meta then Some (stamp_meta E requestor) else None).
Proof. exact (order_payload_meta_lookup E order requestor with_meta). Qed.

(** X4: the order record's [id] is the encoded order id, its [token] the
    order's UUID as text, and its [original] is always an encoded id
    string, also for an order that has no original (never null). *)
Theorem order_payload_identifiers
    (E : Env) (order : Order) (requestor : option Requestor) (with_meta : bool) :
  ∃ d : Dict,
    generate_order_payload E order requestor with_meta = Ok [d]
    ∧ dict_get "id" d = Some (JStr (to_global_id E "Order" (Some (order_id order))))
    ∧ dict_get "token" d = Some (JStr (uuid_str (order_id order)))
    ∧ dict_get "original" d
      = Some (JStr (to_global_id E "Order" (original_id order)))
    ∧ dict_get "user_email" d = Some (JStr (customer_email order)).
Proof.
  order_cases order with_meta;
    (eexists; split; [reflexivity|]; repeat split; vm_compute; reflexivity).
Qed.

Lemma Forall2_fmap_map_map {A B C D : Type} (P : A → D → Prop)
    (f : C → D) (g : B → C) (q : A → B) (l : list A) :
  (∀ x, P x (f (g (q x)))) → Forall2 P l (f <$> map g (map q l)).
Proof. intros H. induction l; simpl; constructor; auto. Qed.

(** X5: the order record nests one record per order line, fulfilment,
    payment and discount of the order, and each fulfilment record nests
    one record per fulfilment line. *)
Theorem order_payload_collection_sizes
    (E : Env) (order : Order) (requestor : option Requestor) (with_meta : bool) :
  ∃ (d : Dict) (ls fs ps ds : list json),
    generate_order_payload E order requestor with_meta = Ok [d]
    ∧ dict_get "lines" d = Some (JList ls)
    ∧ dict_get "fulfillments" d = Some (JList fs)
    ∧ dict_get "payments" d = Some (JList ps)
    ∧ dict_get "discounts" d = Some (JList ds)
    ∧ length ls = length (order_lines order)
    ∧ length ps = length (payments order)
    ∧ length ds = length (discounts order)
    ∧ Forall2
        (fun f record =>
           ∃ r fls, record = JObj r
                    ∧ dict_get "lines" r = Some (JList fls)
                    ∧ length fls = length (fulfillment_lines f))
        (fulfillments order) fs.
Proof.
  order_cases order with_meta;
    (eexists _, _, _, _, _; split; [reflexivity|];
     split; [reflexivity|]; split; [reflexivity|]; split; [reflexivity|];
     split; [reflexivity|];
     unfold records, _generate_order_lines_payload_with_taxes,
       _generate_order_payment_payload, serialize;
     rewrite ?length_fmap, ?length_map;
     split; [reflexivity|]; split; [reflexivity|]; split; [reflexivity|];
     apply Forall2_fmap_map_map; intros f;
     eexists _, _; split; [reflexivity|]; split; [reflexivity|];
     unfold generate_fulfillment_lines_payload, serialize; simpl;
     by rewrite length_fmap, length_map).
Qed.

Lemma Forall_map_all {A B : Type} (P : B → Prop) (f : A → B) (l : list A) :
  (∀ x, P (f x)) → Forall P (map f l).
Proof. intros H. induction l; simpl; constructor; auto. Qed.

(** X6: in the order record itself and in each order-line record the
    two price regimes do not mix: the with-taxes ones have no base
    amount, the without-taxes ones no net or gross amount. The nested
    fulfilment records are the same under both regimes, and their line
    records carry [total_price_net_amount] and [total_price_gross_amount]
    (and no base amount), also inside the without-taxes payload. *)
Theorem price_regimes_exclusive_outside_fulfillments
    (E : Env) (order : Order) (requestor : option Requestor) (with_meta : bool) :
  let no_base d := Forall (fun k => ends_with "_base_amount" k = false) (keys d) in
  let no_taxed d :=
    Forall (fun k => ends_with "_net_amount" k = false
                     ∧ ends_with "_gross_amount" k = false) (keys d) in
  ∃ (dw dwo : Dict) (fs : list json),
    generate_order_payload E order requestor with_meta = Ok [dw]
    ∧ generate_order_payload_without_taxes E order requestor with_meta
      = Ok [dwo]
    ∧ no_base dw ∧ no_taxed dwo
    ∧ Forall no_base
        (_generate_order_lines_payload_with_taxes E order (order_lines order))
    ∧ Forall no_taxed
        (_generate_order_lines_payload_without_taxes E order
           (order_lines order) (include_taxes_in_prices E))
    ∧ dict_get "fulfillments" dw = Some (JList fs)
    ∧ dict_get "fulfillments" dwo = Some (JList fs)
    ∧ Forall2
        (fun f record =>
           ∃ r, record = JObj r
                ∧ dict_get "lines" r
                  = Some (records (generate_fulfillment_lines_payload E f))
                ∧ Forall
                    (fun fl => "total_price_net_amount" ∈ keys fl
                               ∧ "total_price_gross_amount" ∈ keys fl
                               ∧ no_base fl)
                    (generate_fulfillment_lines_payload E f))
        (fulfillments order) fs.
Proof.
  intros no_base no_taxed. subst no_base no_taxed.
  assert (Forall
            (fun d => Forall (fun k => ends_with "_base_amount" k = false) (keys d))
            (_generate_order_lines_payload_with_taxes E order (order_lines order)))
    as Hw.
  { unfold _generate_order_lines_payload_with_taxes, serialize.
    apply Forall_map_all. intros l.
    apply (bool_decide_unpack _). vm_compute. exact I. }
  assert (Forall
            (fun d =>
               Forall (fun k => ends_with "_net_amount" k = false
                                ∧ ends_with "_gross_amount" k = false) (keys d))
            (_generate_order_lines_payload_without_taxes E order
               (order_lines order) (include_taxes_in_prices E))) as Hwo.
  { unfold _generate_order_lines_payload_without_taxes, serialize.
    apply Forall_map_all. intros l.
    apply (bool_decide_unpack _). vm_compute. exact I. }
  assert (∀ f : Fulfillment,
            Forall
              (fun fl => "total_price_net_amount" ∈ keys fl
                         ∧ "total_price_gross_amount" ∈ keys fl
                         ∧ Forall (fun k => ends_with "_base_amount" k = false)
                                  (keys fl))
              (generate_fulfillment_lines_payload E f)) as Hfl.
  { intros f. unfold generate_fulfillment_lines_payload, serialize.
    apply Forall_map_all. intros fl.
    split; [|split]; apply (bool_decide_unpack _); vm_compute; exact I. }
  order_cases order with_meta;
    (eexists _, _, _; split; [reflexivity|]; split; [reflexivity|];
     split; [apply (bool_decide_unpack _); vm_compute; exact I|];
     split; [apply (bool_decide_unpack _); vm_compute; exact I|];
     split; [exact Hw|]; split; [exact Hwo|];
     split; [reflexivity|]; split; [reflexivity|];
     unfold records, serialize;
     apply Forall2_fmap_map_map; intros f;
     eexists; split; [reflexivity|]; split; [reflexivity|]; apply Hfl).
Qed.

(** X7: in the without-taxes payload every base amount is the gross
    amount when prices are entered with taxes and the net amount
    otherwise, quantized in the order's currency; the record states the
    flag that was used. *)
Theorem without_taxes_base_amounts
    (E : Env) (order : Order) (requestor : option Requestor) (with_meta : bool) :
  let base price :=
    JDec (quantize_price E
            (if include_taxes_in_prices E then gross price else net price)
            (order_currency order)) in
  ∃ d : Dict,
    generate_order_payload_without_taxes E order requestor with_meta = Ok [d]
    ∧ dict_get "included_taxes_in_prices" d
      = Some (JBool (include_taxes_in_prices E))
    ∧ dict_get "shipping_price_base_amount" d = Some (base (shipping_price order))
    ∧ dict_get "total_base_amount" d = Some (base (total order))
    ∧ dict_get "undiscounted_total_base_amount" d
      = Some (base (undiscounted_total order))
    ∧ Forall2
        (fun l r =>
           dict_get "unit_price_base_amount" r = Some (base (unit_price l))
           ∧ dict_get "total_price_base_amount" r = Some (base (total_price l))
           ∧ dict_get "undiscounted_unit_price_base_amount" r
             = Some (base (undiscounted_unit_price l))
           ∧ dict_get "undiscounted_total_price_base_amount" r
             = Some (base (undiscounted_total_price l)))
        (order_lines order)
        (_generate_order_lines_payload_without_taxes E order
           (order_lines order) (include_taxes_in_prices E)).
Proof.
  intros base. subst base.
  assert (Forall2
            (fun l r =>
               dict_get "unit_price_base_amount" r
               = Some (JDec (quantize_price E
                               (if include_taxes_in_prices E
                                then gross (unit_price l) else net (unit_price l))
                               (order_currency order)))
               ∧ dict_get "total_price_base_amount" r
                 = Some (JDec (quantize_price E
                                 (if include_taxes_in_prices E
                                  then gross (total_price l)
                                  else net (total_price l))
                                 (order_currency order)))
               ∧ dict_get "undiscounted_unit_price_base_amount" r
                 = Some (JDec (quantize_price E
                                 (if include_taxes_in_prices E
                                  then gross (undiscounted_unit_price l)
                                  else net (undiscounted_unit_price l))
                                 (order_currency order)))
               ∧ dict_get "undiscounted_total_price_base_amount" r
                 = Some (JDec (quantize_price E
                                 (if include_taxes_in_prices E
                                  then gross (undiscounted_total_price l)
                                  else net (undiscounted_total_price l))
                                 (order_currency order))))
            (order_lines order)
            (_generate_order_lines_payload_without_taxes E order
               (order_lines order) (include_taxes_in_prices E))) as Hl.
  { unfold _generate_order_lines_payload_without_taxes, serialize.
    rewrite map_map. apply Forall2_map_same. intros l.
    repeat split; vm_compute; reflexivity. }
  order_cases order with_meta;
    (eexists; split; [reflexivity|];
     split; [vm_compute; reflexivity|]; split; [vm_compute; reflexivity|];
     split; [vm_compute; reflexivity|]; split; [vm_compute; reflexivity|];
     exact Hl).
Qed.

(** ** Fulfilment payload *)

(** X8: when the fulfilment's first line has no stock (or there is no
    line) and no warehouse serves the order's country, composing the
    fulfilment payload raises on [warehouse.address]. *)
Theorem fulfillment_payload_without_warehouse
    (E : Env) (L : Lookups) (fulfillment : Fulfillment) (order : Order)
    (requestor : option Requestor) :
  (∀ fl, head (fulfillment_lines fulfillment) = Some fl → stock fl = None) →
  warehouse_for_country E (get_order_country L order) = None →
  generate_fulfillment_payload E L fulfillment order requestor
  = Raise (AttributeError "address").
Proof.
  intros Hstock Hnone.
  destruct (order_payload_absent_relations E order None false)
    as [(od & Hod & _) _].
  unfold generate_fulfillment_payload. rewrite Hod. simpl.
  destruct (head (fulfillment_lines fulfillment)) as [fl|] eqn:Hhead.
  - rewrite (Hstock fl eq_refl), Hnone. reflexivity.
  - rewrite Hnone. reflexivity.
Qed.

(** X9: when a warehouse is found (the stock's warehouse of the first
    line, else the one serving the order's country) the fulfilment
    payload is one record with the requestor's meta envelope, the
    fulfilment lines, and the with-taxes order record nested without a
    meta envelope of its own. *)
Theorem fulfillment_payload_nests_order_without_meta
    (E : Env) (L : Lookups) (fulfillment : Fulfillment) (order : Order)
    (requestor : option Requestor) :
  (∃ fl s, head (fulfillment_lines fulfillment) = Some fl ∧ stock fl = Some s)
  ∨ is_Some (warehouse_for_country E (get_order_country L order)) →
  ∃ d od : Dict,
    generate_fulfillment_payload E L fulfillment order requestor = Ok [d]
    ∧ generate_order_payload E order None false = Ok [od]
    ∧ dict_get "order" d = Some (JObj od)
    ∧ dict_get "meta" od = None
    ∧ dict_get "meta" d = Some (stamp_meta E requestor)
    ∧ dict_get "lines" d
      = Some (records (generate_fulfillment_lines_payload E fulfillment)).
Proof.
  intros Hw.
  destruct (order_payload_meta_lookup E order None false)
    as (od & _ & Hod & _ & Hmeta & _).
  exists (get_dump_object E "id"
            ["status"; "tracking_code"; "order__user_email";
             "shipping_refund_amount"; "total_refund_amount"]
            [("warehouse_address",
              (fun _ : Fulfillment =>
                 opt_related
                   (warehouse_address
                      (default (mkWarehouse 0 (fun _ => JNull) None)
                         match head (fulfillment_lines fulfillment) with
                         | Some fl =>
                             match stock fl with
                             | Some s => Some (stock_warehouse L s)
                             | None =>
                                 warehouse_for_country E
                                   (get_order_country L order)
                             end
                         | None =>
                             warehouse_for_country E (get_order_country L order)
                         end)),
               ADDRESS_FIELDS))]
            [("order", Const (JObj od));
             ("lines",
              Const (records (generate_fulfillment_lines_payload E fulfillment)));
             ("meta", Const (stamp_meta E requestor))]
            (with_fulfillment_attr fulfillment
               (quantize_price_fields E (fulfillment_attr fulfillment)
                  ["shipping_refund_amount"; "total_refund_amount"]
                  (order_currency order)))), od.
  split; [|split; [exact Hod|split; [|split; [exact Hmeta|split]]]];
    try (vm_compute; reflexivity).
  unfold generate_fulfillment_payload. rewrite Hod. simpl.
  destruct Hw as [(fl & s & -> & ->)|[w Hw]]; [reflexivity|].
  destruct (head (fulfillment_lines fulfillment)) as [fl|];
    [destruct (stock fl)|]; rewrite ?Hw; reflexivity.
Qed.

(** ** Shipping-method and gateway payloads *)

(** X10: the excluded-shipping-methods payload of an order is always
    produced; it holds the without-taxes order record (with the meta
    envelope of an absent requestor) and one record per candidate method,
    in order, each with the method's id, price, currency, name and its
    four weight and delivery bounds. *)
Theorem excluded_shipping_methods_for_order_shape
    (E : Env) (order : Order) (methods : list ShippingMethodData) :
  ∃ (od : Dict) (ms : list json),
    generate_excluded_shipping_methods_for_order_payload E order methods
    = Ok [("order", JObj od); ("shipping_methods", JList ms)]
    ∧ generate_order_payload_without_taxes E order None true = Ok [od]
    ∧ dict_get "meta" od = Some (stamp_meta E None)
    ∧ Forall2
        (fun m record =>
           ∃ r, record = JObj r
                ∧ keys r = ["id"; "price"; "currency"; "name";
                            "maximum_order_weight"; "minimum_order_weight";
                            "maximum_delivery_days"; "minimum_delivery_days"]
                ∧ dict_get "id" r = Some (JStr (graphql_id m))
                ∧ dict_get "price" r = Some (JDec (method_price_amount m))
                ∧ dict_get "currency" r = Some (JStr (method_price_currency m)))
        methods ms.
Proof.
  destruct (order_payload_meta_lookup E order None true)
    as (dw & od & _ & Hod & _ & Hmeta).
  exists od. eexists. unfold generate_excluded_shipping_methods_for_order_payload.
  rewrite Hod. simpl. split; [reflexivity|]. split; [reflexivity|].
  split; [exact Hmeta|].
  apply Forall2_map_same. intros m. eexists. repeat split; reflexivity.
Qed.

(** X11: the excluded-shipping-methods payload of a checkout is always
    produced, does not depend on the lines it is given, and holds the
    checkout record of [generate_checkout_payload] and one record per
    candidate method, in order. *)
Theorem excluded_shipping_methods_for_checkout_shape
    (E : Env) (checkout_info : CheckoutInfo) (lines lines' : list json)
    (methods : list ShippingMethodData) :
  ∃ cd : Dict,
    generate_excluded_shipping_methods_for_checkout_payload E checkout_info
      lines methods
    = Ok [("checkout", JObj cd);
          ("shipping_methods",
           JList (map (fun m => JObj (_generate_payload_for_shipping_method m))
                      methods))]
    ∧ generate_checkout_payload E (info_checkout checkout_info) None = Ok [cd]
    ∧ generate_excluded_shipping_methods_for_checkout_payload E checkout_info
        lines' methods
      = generate_excluded_shipping_methods_for_checkout_payload E checkout_info
          lines methods.
Proof.
  destruct (checkout_payload_absent_relations E (info_checkout checkout_info) None)
    as (cd & Hcd & _).
  exists cd. unfold generate_excluded_shipping_methods_for_checkout_payload.
  rewrite Hcd. simpl. repeat split; reflexivity.
Qed.

(** X12: the gateway-list payload is always produced: without a checkout
    its [checkout] entry is null, with one it is the checkout record of
    [generate_checkout_payload]; the currency (or null) is passed on. *)
Theorem list_gateways_payload_shape
    (E : Env) (currency : option string) :
  generate_list_gateways_payload E currency None
  = Ok [("checkout", JNull); ("currency", opt_str currency)]
  ∧ ∀ checkout : Checkout,
      ∃ cd : Dict,
        generate_list_gateways_payload E currency (Some checkout)
        = Ok [("checkout", JObj cd); ("currency", opt_str currency)]
        ∧ generate_checkout_payload E checkout None = Ok [cd].
Proof.
  split; [reflexivity|]. intros checkout.
  destruct (checkout_payload_absent_relations E checkout None) as (cd & Hcd & _).
  exists cd. unfold generate_list_gateways_payload. rewrite Hcd.
  split; reflexivity.
Qed.

(** ** Checkout payload for tax calculation *)

(** X13: the tax-calculation payload is one record without a meta
    envelope and does not depend on the requestor; its discount list is
    empty exactly when the quantized discount is zero and otherwise has
    one named entry; its address is the shipping address, else the
    billing address, else null; without a user the user id is null and
    the public metadata an empty object. *)
Theorem checkout_tax_payload_shape
    (E : Env) (L : Lookups) (checkout_info : CheckoutInfo) (lines : list json)
    (requestor : option Requestor) :
  let discount :=
    quantize_price E (checkout_discount_amount checkout_info)
      (checkout_currency (info_checkout checkout_info)) in
  ∃ d : Dict,
    generate_checkout_payload_for_tax_calculation E L checkout_info lines
      requestor = [d]
    ∧ generate_checkout_payload_for_tax_calculation E L checkout_info lines None
      = [d]
    ∧ dict_get "meta" d = None
    ∧ dict_get "lines" d
      = Some (JList (serialize_checkout_lines_for_tax_calculation L
                       checkout_info lines (include_taxes_in_prices E)))
    ∧ dict_get "discounts" d
      = Some (JList (if decide (mantissa discount = 0) then []
                     else [JObj [("name", checkout_discount_name checkout_info);
                                 ("amount", JDec discount)]]))
    ∧ dict_get "address" d
      = Some (serialize_related E ADDRESS_FIELDS
                (opt_related
                   (match info_shipping_address checkout_info with
                    | Some a => Some a
                    | None => info_billing_address checkout_info
                    end)))
    ∧ (info_shipping_address checkout_info = None →
       info_billing_address checkout_info = None →
       dict_get "address" d = Some JNull)
    ∧ (info_user checkout_info = None →
       dict_get "user_id" d = Some JNull
       ∧ dict_get "user_public_metadata" d = Some (JObj [])).
Proof.
  intros discount. subst discount.
  unfold generate_checkout_payload_for_tax_calculation, serialize. simpl.
  eexists. split; [reflexivity|]. split; [reflexivity|].
  split; [vm_compute; reflexivity|]. split; [vm_compute; reflexivity|]. split.
  - unfold decimal_truthy.
    destruct (decide (mantissa
                        (quantize_price E (checkout_discount_amount checkout_info)
                           (checkout_currency (info_checkout checkout_info))) = 0))
      as [Hz|Hnz].
    + rewrite Hz. vm_compute. reflexivity.
    + apply Z.eqb_neq in Hnz. rewrite Hnz. vm_compute. reflexivity.
  - split; [vm_compute; reflexivity|]. split.
    + intros -> ->. vm_compute. reflexivity.
    + intros ->. split; vm_compute; reflexivity.
Qed.

(** ** Payment and page payloads *)

(** X14: apart from [amount], [payment_method] and [meta], every field of
    the payment data reaches the payload unchanged. *)
Theorem generate_payment_payload_keeps_other_fields
    (E : Env) (payment_data : PaymentData) (requestor : option Requestor)
    (k : string) :
  k ≠ "amount" → k ≠ "payment_method" → k ≠ "meta" →
  dict_get k (generate_payment_payload E payment_data requestor)
  = dict_get k (asdict payment_data).
Proof.
  intros Ha Hp Hm. unfold generate_payment_payload.
  destruct (from_payment_app_id E (gateway payment_data));
    rewrite !dict_get_set; repeat case_decide; done.
Qed.

(** X15: the page payload is one record that carries the requestor's
    envelope under [data], has no [meta] entry, and whose [published_at]
    and [publication_date] entries both hold the page's [published_at]. *)
Theorem generate_page_payload_shape
    (E : Env) (page : Page) (requestor : option Requestor) :
  ∃ d : Dict,
    generate_page_payload E page requestor = [d]
    ∧ dict_get "meta" d = None
    ∧ dict_get "data" d = Some (stamp_meta E requestor)
    ∧ dict_get "published_at" d = Some (published_at page)
    ∧ dict_get "publication_date" d = Some (published_at page)
    ∧ dict_get "publication_date" d = dict_get "published_at" d.
Proof.
  eexists. split; [reflexivity|]. repeat split; vm_compute; reflexivity.
Qed.

(** ** Sample selection *)

Lemma dict_set_idempotent (k : string) (v : json) (d : Dict) :
  dict_set k v (dict_set k v d) = dict_set k v d.
Proof.
  induction d as [|[k0 v0] r IH]; simpl.
  - by rewrite decide_True.
  - destruct (decide (k = k0)) as [->|Hne]; simpl.
    + by rewrite decide_True.
    + rewrite decide_False by done. by rewrite IH.
Qed.

(** X16: replacing the token fails with [IndexError] exactly on an empty
    payload list; otherwise only the first record's [token] changes (to
    the UUID of 1), every other entry and every other record is kept, and
    doing it twice is the same as doing it once. *)
Theorem remove_token_from_checkout_only_token (payload : list Dict) :
  (_remove_token_from_checkout payload = Raise IndexError ↔ payload = [])
  ∧ ∀ d rest, payload = d :: rest →
      ∃ d', _remove_token_from_checkout payload = Ok (d' :: rest)
            ∧ dict_get "token" d' = Some (JStr (uuid_str 1))
            ∧ (∀ k, k ≠ "token" → dict_get k d' = dict_get k d)
            ∧ _remove_token_from_checkout (d' :: rest) = Ok (d' :: rest).
Proof.
  split.
  - destruct payload; simpl; split; done.
  - intros d rest ->. eexists. split; [reflexivity|]. split; [|split].
    + rewrite dict_get_set. by rewrite decide_True.
    + intros k Hk. rewrite dict_get_set. by rewrite decide_False.
    + simpl. by rewrite dict_set_idempotent.
Qed.

(** X17: sampling a query gives no object exactly when the query is
    empty, and otherwise one of its rows, whatever the random source. *)
Theorem get_sample_object_member {A : Type} (rand : nat) (qs : list A) :
  (_get_sample_object rand qs = None ↔ qs = [])
  ∧ ∀ x, _get_sample_object rand qs = Some x → x ∈ qs.
Proof.
  split.
  - split.
    + intros Hn. destruct qs as [|a qs]; [done|].
      destruct (get_sample_object_is_Some rand (a :: qs)) as [x Hx]; [done|].
      congruence.
    + intros ->. reflexivity.
  - intros x Hx. unfold _get_sample_object in Hx.
    by eapply list_elem_of_lookup_2.
Qed.

Section SampleEvents.
Variable E : Env.
Variable generate_fake_user : User.
Variable generate_customer_payload : User → Result json.
Variable generate_product_payload : Product → Result json.
Variable generate_fulfillment_payload' : Fulfillment → Order → Result json.

Let sample :=
  generate_sample_payload E generate_fake_user generate_customer_payload
    generate_product_payload generate_fulfillment_payload'.

(** X18: the "order cancelled" and the "order updated" samples are both
    drawn from the cancelled orders. Without a cancelled order the result
    is [None], whatever other orders there are; with one it is the
    with-taxes payload, stamped for an absent requestor, of the anonymized
    copy of one cancelled order. *)
Theorem sample_order_updated_draws_cancelled_order
    (db : Database) (rand : nat) (event_name : string) :
  event_name ∈ ["order_cancelled"; "order_updated"] →
  (Forall (fun o => order_status o ≠ "canceled") (db_orders db) →
   sample db rand event_name = Ok None)
  ∧ ((∃ o, o ∈ db_orders db ∧ order_status o = "canceled") →
     ∃ (o : Order) (d : Dict),
       o ∈ db_orders db ∧ order_status o = "canceled"
       ∧ generate_order_payload E (anonymize_order E o) None true = Ok [d]
       ∧ sample db rand event_name = Ok (Some (JList [JObj d]))).
Proof.
  intros Hev. rewrite !elem_of_cons, elem_of_nil in Hev.
  assert (sample db rand event_name
          = (p ← _generate_sample_order_payload E db rand event_name;
             match p with Some payload => Ok (Some payload) | None => Ok None end))
    as Hs.
  { destruct Hev as [->|[->|[]]];
      unfold sample, generate_sample_payload, sample_payload_binding; simpl;
      destruct (_generate_sample_order_payload E db rand _) as [[?|]|];
      reflexivity. }
  assert (_generate_sample_order_payload E db rand event_name
          = match _get_sample_object rand
                    (filter (fun o => order_status o = OrderStatus.CANCELED)
                       (db_orders db)) with
            | Some order =>
                p ← generate_order_payload E (anonymize_order E order) None true;
                Ok (Some (records p))
            | None => Ok None
            end) as Hg
    by (destruct Hev as [->|[->|[]]]; reflexivity).
  rewrite Hs, Hg. clear Hs Hg Hev. split.
  - intros Hall.
    assert (filter (fun o => order_status o = OrderStatus.CANCELED)
              (db_orders db) = []) as ->; [|reflexivity].
    induction Hall as [|o os Ho _ IH]; [reflexivity|].
    rewrite filter_cons_False by exact Ho. exact IH.
  - intros (o0 & Hin & Hst).
    assert (filter (fun o => order_status o = OrderStatus.CANCELED)
              (db_orders db) ≠ []) as Hne.
    { intros Heq.
      assert (o0 ∈ filter (fun o => order_status o = OrderStatus.CANCELED)
                     (db_orders db)) as H0
        by (apply list_elem_of_filter; split; assumption).
      rewrite Heq in H0. by apply elem_of_nil in H0. }
    destruct (get_sample_object_is_Some rand _ Hne) as [o Ho].
    assert (o ∈ filter (fun o => order_status o = OrderStatus.CANCELED)
                  (db_orders db)) as Hmem
      by (eapply list_elem_of_lookup_2; exact Ho).
    apply list_elem_of_filter in Hmem as [Hc Hd].
    destruct (order_payload_absent_relations E (anonymize_order E o) None true)
      as [(d & Hd' & _) _].
    exists o, d. split; [exact Hd|]. split; [exact Hc|]. split; [exact Hd'|].
    rewrite Ho. simpl. rewrite Hd'. reflexivity.
Qed.

(** X19: when some order is unfulfilled, the "order created" sample is
    the with-taxes payload, stamped for an absent requestor, of the
    anonymized copy of one unfulfilled order of the database. *)
Theorem sample_order_created_is_unfulfilled_order (db : Database) (rand : nat) :
  (∃ o, o ∈ db_orders db ∧ order_status o = "unfulfilled") →
  ∃ (o : Order) (d : Dict),
    o ∈ db_orders db ∧ order_status o = "unfulfilled"
    ∧ generate_order_payload E (anonymize_order E o) None true = Ok [d]
    ∧ sample db rand "order_created" = Ok (Some (JList [JObj d])).
Proof.
  intros (o0 & Hin & Hst).
  assert (filter (fun o => order_status o = OrderStatus.UNFULFILLED)
            (db_orders db) ≠ []) as Hne.
  { intros Heq.
    assert (o0 ∈ filter (fun o => order_status o = OrderStatus.UNFULFILLED)
                   (db_orders db)) as H0
      by (apply list_elem_of_filter; split; assumption).
    rewrite Heq in H0. by apply elem_of_nil in H0. }
  destruct (get_sample_object_is_Some rand _ Hne) as [o Ho].
  assert (o ∈ filter (fun o => order_status o = OrderStatus.UNFULFILLED)
                (db_orders db)) as Hmem
    by (eapply list_elem_of_lookup_2; exact Ho).
  apply list_elem_of_filter in Hmem as [Hs Hd].
  destruct (order_payload_absent_relations E (anonymize_order E o) None true)
    as [(d & Hd' & _) _].
  exists o, d. split; [exact Hd|]. split; [exact Hs|]. split; [exact Hd'|].
  unfold sample, generate_sample_payload, sample_payload_binding,
    _generate_sample_order_payload. simpl.
  rewrite Ho. simpl. rewrite Hd'. reflexivity.
Qed.

(** X20: for a page event with at least one page, the sample is the page
    payload, stamped for an absent requestor, of one page of the
    database. *)
Theorem sample_page_event_is_page_payload
    (db : Database) (rand : nat) (event_name : string) :
  event_name ∈ ["page_created"; "page_deleted"; "page_updated"] →
  db_pages db ≠ [] →
  ∃ page : Page,
    page ∈ db_pages db
    ∧ sample db rand event_name
      = Ok (Some (records (generate_page_payload E page None))).
Proof.
  intros Hev Hne.
  destruct (get_sample_object_is_Some rand (db_pages db) Hne) as [page Hp].
  exists page. split; [by eapply list_elem_of_lookup_2|].
  rewrite !elem_of_cons, elem_of_nil in Hev.
  destruct Hev as [->|[->|[->|[]]]];
    unfold sample, generate_sample_payload, sample_payload_binding; simpl;
    rewrite Hp; reflexivity.
Qed.
End SampleEvents.

(** ** Instances on concrete entities *)

Lemma process_translation_context_shape_witness :
  context_id MoreFixtures.context "page_id" = None.
Proof.
  apply (proj2 (proj2 (proj2 (process_translation_context_shape Fixtures.env
                                MoreFixtures.context)) "page_id")).
  intros object_id H. vm_compute in H. congruence.
Defined.

Lemma fulfillment_payload_without_warehouse_witness :
  generate_fulfillment_payload Fixtures.env MoreFixtures.lookups
    Fixtures.fulfillment Fixtures.order None
  = Raise (AttributeError "address").
Proof.
  apply fulfillment_payload_without_warehouse.
  - intros fl H. simpl in H. injection H as <-. reflexivity.
  - reflexivity.
Defined.

Lemma fulfillment_payload_nests_order_without_meta_witness :
  ∃ d od : Dict,
    generate_fulfillment_payload Fixtures.env MoreFixtures.lookups
      MoreFixtures.stocked_fulfillment Fixtures.order None = Ok [d]
    ∧ dict_get "order" d = Some (JObj od)
    ∧ dict_get "meta" od = None.
Proof.
  destruct (fulfillment_payload_nests_order_without_meta Fixtures.env
              MoreFixtures.lookups MoreFixtures.stocked_fulfillment
              Fixtures.order None)
    as (d & od & H1 & _ & H3 & H4 & _).
  - left. eexists _, _. split; reflexivity.
  - exists d, od. auto.
Defined.

Lemma checkout_tax_payload_shape_witness :
  ∃ d : Dict,
    generate_checkout_payload_for_tax_calculation Fixtures.env
      MoreFixtures.lookups MoreFixtures.checkout_info [] None = [d]
    ∧ dict_get "address" d = Some JNull
    ∧ dict_get "user_id" d = Some JNull.
Proof.
  destruct (checkout_tax_payload_shape Fixtures.env MoreFixtures.lookups
              MoreFixtures.checkout_info [] None)
    as (d & H1 & _ & _ & _ & _ & _ & Ha & Hu).
  exists d. split; [exact H1|]. split.
  - apply Ha; reflexivity.
  - apply Hu. reflexivity.
Defined.

Lemma generate_payment_payload_keeps_other_fields_witness :
  dict_get "token" (generate_payment_payload Fixtures.env Fixtures.card_payment None)
  = dict_get "token" (asdict Fixtures.card_payment).
Proof.
  apply generate_payment_payload_keeps_other_fields; discriminate.
Defined.

Lemma remove_token_from_checkout_only_token_witness :
  ∃ d',
    _remove_token_from_checkout [[("token", JStr "t"); ("email", JNull)]]
    = Ok [d']
    ∧ dict_get "token" d' = Some (JStr (uuid_str 1)).
Proof.
  destruct (proj2 (remove_token_from_checkout_only_token
                     [[("token", JStr "t"); ("email", JNull)]])
              _ _ eq_refl) as (d' & H1 & H2 & _).
  exists d'. auto.
Defined.

Lemma get_sample_object_member_witness : 2%nat ∈ [1%nat; 2%nat].
Proof.
  apply (proj2 (get_sample_object_member 3 [1%nat; 2%nat]) 2%nat).
  reflexivity.
Defined.

Lemma sample_order_created_is_unfulfilled_order_witness :
  ∃ (o : Order) (d : Dict),
    o ∈ db_orders MoreFixtures.order_db
    ∧ generate_sample_payload Fixtures.env Fixtures.fake_user
        Fixtures.no_payload Fixtures.no_payload Fixtures.no_payload2
        MoreFixtures.order_db 5 "order_created"
      = Ok (Some (JList [JObj d])).
Proof.
  destruct (sample_order_created_is_unfulfilled_order Fixtures.env
              Fixtures.fake_user Fixtures.no_payload Fixtures.no_payload
              Fixtures.no_payload2 MoreFixtures.order_db 5)
    as (o & d & H1 & _ & _ & H4).
  - exists Fixtures.order. split; [|reflexivity].
    apply elem_of_cons. by left.
  - exists o, d. auto.
Defined.

Lemma sample_order_updated_draws_cancelled_order_witness :
  generate_sample_payload Fixtures.env Fixtures.fake_user
    Fixtures.no_payload Fixtures.no_payload Fixtures.no_payload2
    MoreFixtures.order_db 5 "order_updated"
  = Ok None.
Proof.
  apply (sample_order_updated_draws_cancelled_order Fixtures.env
           Fixtures.fake_user Fixtures.no_payload Fixtures.no_payload
           Fixtures.no_payload2 MoreFixtures.order_db 5 "order_updated").
  - apply elem_of_cons. right. apply elem_of_cons. by left.
  - repeat constructor. discriminate.
Defined.

Lemma sample_page_event_is_page_payload_witness :
  ∃ page : Page,
    page ∈ db_pages MoreFixtures.page_db
    ∧ generate_sample_payload Fixtures.env Fixtures.fake_user
        Fixtures.no_payload Fixtures.no_payload Fixtures.no_payload2
        MoreFixtures.page_db 1 "page_created"
      = Ok (Some (records (generate_page_payload Fixtures.env page None))).
Proof.
  apply (sample_page_event_is_page_payload Fixtures.env Fixtures.fake_user
           Fixtures.no_payload Fixtures.no_payload Fixtures.no_payload2
           MoreFixtures.page_db 1 "page_created").
  - apply elem_of_cons. by left.
  - discriminate.
Defined.
